(** * Albany Land Ice nightly performance report ([email_report.py])

    A shallow embedding of the three functions of
    [ali/blake_nightly_data/email_report.py]:

    - [simple_perf_test]      the regression classifier,
    - [build_perf_tests]      the per-case aggregator,
    - [build_perf_tests_html] the renderer of the (subject, body) pair,

    followed by the properties of the specification that concern them.

    Wall times are IEEE-754 binary64 numbers ([np.float64]); they are
    modelled by Rocq's primitive floats, which are exactly binary64 with
    round-to-nearest-even.  Python exceptions are modelled by an error
    monad, insertion-ordered dictionaries by association lists. *)

From Stdlib Require Import List String Ascii ZArith Lia Bool PeanoNat.
From Stdlib Require Import Floats DecimalString.
Import ListNotations.

Local Open Scope string_scope.
Local Open Scope list_scope.

(** ** The fragment of Python the script relies on *)

Module Py.

(** The exceptions that the modelled code can raise.  [IndexError] and
    [KeyError] are raised by the script's own subscripts; [ExternalError]
    stands for anything raised inside an imported collaborator
    ([json2status], [json2timeline]). *)
Inductive exn : Set :=
| IndexError
| KeyError
| ExternalError.

Inductive result (A : Type) : Type :=
| Ok (a : A)
| Raise (e : exn).
Arguments Ok {A} a.
Arguments Raise {A} e.

Definition bind {A B : Type} (m : result A) (k : A -> result B) : result B :=
  match m with
  | Ok a => k a
  | Raise e => Raise e
  end.

(** [l[i]] for a Python sequence: a negative index counts from the end,
    and an index outside [-len, len) raises [IndexError]. *)
Definition getitem {A : Type} (l : list A) (i : Z) : result A :=
  let n := Z.of_nat (List.length l) in
  let j := if (i <? 0)%Z then (i + n)%Z else i in
  if ((j <? 0) || (n <=? j))%Z then Raise IndexError
  else match nth_error l (Z.to_nat j) with
       | Some x => Ok x
       | None => Raise IndexError
       end.

(** [str(n)] for a Python integer. *)
Definition str (n : Z) : string := NilZero.string_of_int (Z.to_int n).

(** A [dict] with string keys.  Python dictionaries iterate in insertion
    order; assigning to a key that is already present replaces the value
    and keeps the key at its original position. *)
Definition dict (V : Type) : Type := list (string * V).

Fixpoint setitem {V : Type} (d : dict V) (k : string) (v : V) : dict V :=
  match d with
  | [] => [(k, v)]
  | (k', v') :: d' =>
      if String.eqb k' k then (k', v) :: d' else (k', v') :: setitem d' k v
  end.

(** [d[k]], raising [KeyError] when the key is absent. *)
Fixpoint lookup {V : Type} (d : dict V) (k : string) : result V :=
  match d with
  | [] => Raise KeyError
  | (k', v') :: d' => if String.eqb k' k then Ok v' else lookup d' k
  end.

Definition keys {V : Type} (d : dict V) : list string := map fst d.

(** [d.items()] is the association list itself. *)
Definition items {V : Type} (d : dict V) : list (string * V) := d.

End Py.

Import Py.

Notation "x <- m ;; k" := (Py.bind m (fun x => k))
  (at level 61, m at next level, right associativity).

(** ** The fragment of NumPy the script relies on

    [np.mean] and [np.std] are library functions.  They are modelled after
    NumPy's implementation ([numpy/core/_methods.py], [_mean] and [_var]):
    the mean is [add.reduce(a) / n], and the standard deviation is
    [sqrt(add.reduce((a - mean)**2) / (n - ddof))] with [ddof = 0]
    (population standard deviation).  [add.reduce] on a contiguous float64
    array starts from the additive identity and adds NumPy's pairwise sum of
    the data: fewer than 8 elements are added left to right; up to 128
    elements are accumulated in 8 interleaved partial sums which are then
    combined pairwise; longer arrays are split in two halves (the first a
    multiple of 8) that are summed recursively.  All the sums, differences,
    products and quotients are binary64 operations. *)

Module Np.

Local Open Scope float_scope.

Fixpoint sum_loop (res : float) (a : list float) : float :=
  match a with
  | [] => res
  | x :: a' => sum_loop (res + x) a'
  end.

(** The unrolled loop over blocks of 8, its final combination, and the
    loop over the remaining (fewer than 8) elements. *)
Fixpoint sum_unrolled (r0 r1 r2 r3 r4 r5 r6 r7 : float) (a : list float)
  : float :=
  match a with
  | x0 :: x1 :: x2 :: x3 :: x4 :: x5 :: x6 :: x7 :: a' =>
      sum_unrolled (r0 + x0) (r1 + x1) (r2 + x2) (r3 + x3)
                   (r4 + x4) (r5 + x5) (r6 + x6) (r7 + x7) a'
  | _ =>
      sum_loop (((r0 + r1) + (r2 + r3)) + ((r4 + r5) + (r6 + r7))) a
  end.

Definition sum_block (a : list float) : float :=
  match a with
  | x0 :: x1 :: x2 :: x3 :: x4 :: x5 :: x6 :: x7 :: a' =>
      sum_unrolled x0 x1 x2 x3 x4 x5 x6 x7 a'
  | _ => sum_loop 0 a
  end.

(** [pairwise_sum]; the recursion on the two halves is driven by [fuel],
    and one unit of fuel per element is always enough
    (see [pairwise_sum_fuel_enough] and [pairwise_sum_unfold] below). *)
Fixpoint pairwise_sum_fuel (fuel : nat) (a : list float) : float :=
  let n := List.length a in
  if (n <? 8)%nat then sum_loop 0 a
  else if (n <=? 128)%nat then sum_block a
  else match fuel with
       | O => sum_block a
       | S fuel' =>
           let n2 := (n / 2)%nat in
           let n2 := (n2 - n2 mod 8)%nat in
           pairwise_sum_fuel fuel' (firstn n2 a)
           + pairwise_sum_fuel fuel' (skipn n2 a)
       end.

Definition pairwise_sum (a : list float) : float :=
  pairwise_sum_fuel (List.length a) a.

(** [np.add.reduce(a)]: the identity of addition plus the pairwise sum. *)
Definition add_reduce (a : list float) : float := 0 + pairwise_sum a.

(** The number of elements as a float64 ([rcount]). *)
Definition count (a : list float) : float :=
  of_uint63 (Uint63.of_Z (Z.of_nat (List.length a))).

(** [np.asarray(wtimes, dtype=np.float64)] on a sequence of floats. *)
Definition asarray (wtimes : list float) : list float := wtimes.

Definition mean (a : list float) : float := add_reduce a / count a.

Definition var (a : list float) : float :=
  let arrmean := add_reduce a / count a in
  let x := map (fun v => v - arrmean) a in
  let x := map (fun v => v * v) x in
  add_reduce x / count a.

Definition std (a : list float) : float := sqrt (var a).

End Np.

(** ** [simple_perf_test] *)

Section Classifier.

Local Open Scope float_scope.

(** Returns [(status, measured, mean, std)].  The subscripts [wt[-1]] and
    [wt[-2]] are evaluated in the order in which Python evaluates them:
    [wt[-2]] only when the first comparison is false. *)
Definition simple_perf_test (wtimes : list float) (stdCoeff : float)
  : result (string * float * float * float) :=
  (* Compute mean and std *)
  let wt := Np.asarray wtimes in
  let mu := Np.mean wt in
  let sig := Np.std wt in
  (* Performance test *)
  status <-
    (last <- getitem wt (-1) ;;
     if abs (last - mu) <? stdCoeff * sig then Ok "pass"
     else
       prev <- getitem wt (-2) ;;
       if abs (prev - mu) <? stdCoeff * sig then Ok "warn"
       else Ok "fail") ;;
  measured <- getitem wt (-1) ;;
  Ok (status, measured, mu, sig).

End Classifier.

(** ** [build_perf_tests] *)

(** One entry of [testDict['timers']]; the fields are the dictionary's keys. *)
Record TimerInfo : Type := mkTimerInfo {
  measured : float;
  mean : float;
  std : float;
  perfTestColor : string
}.

(** One entry of [perfTests].  The key ['timers'] is present only when the
    case ran: an absent key is [None], and subscripting it raises
    [KeyError]. *)
Record CaseInfo : Type := mkCaseInfo {
  runTest : string;
  runTestColor : string;
  timers : option (dict TimerInfo);
  perfTests : string;
  perfTestsColor : string
}.

(** A [for] loop over a sequence whose body updates a state and may raise. *)
Fixpoint for_each {A S : Type} (body : S -> A -> result S) (l : list A) (s : S)
  : result S :=
  match l with
  | [] => Ok s
  | x :: l' => s' <- body s x ;; for_each body l' s'
  end.

Definition colorMap : dict string :=
  [("pass", "green"); ("warn", "yellow"); ("fail", "red")].

Section Aggregator.

(** The imported collaborators.  [json2status files case nps] returns the
    dates and the run outcomes of a case, [json2timeline files case nps
    timer False] the dates and the wall times of one of its timers; both
    read the result archives and may raise. *)
Variables Files Dates : Type.
Variable json2status :
  Files -> string -> Z -> result (list Dates * list bool).
Variable json2timeline :
  Files -> string -> Z -> string -> bool -> result (list Dates * list float).

(** Body of the loop over timers.  The state is the pair of
    [testDict['timers']] and [colorCounter].  The script stores an empty
    [timerDict] under [timer] first and fills it in through the alias; the
    completed entry is stored here, which yields the same dictionary. *)
Definition timer_body (files : Files) (case : string) (nps : Z)
    (st : dict TimerInfo * dict Z) (timer : string)
  : result (dict TimerInfo * dict Z) :=
  let '(timersDict, colorCounter) := st in
  (* Extract timer data and run performance test *)
  dw <- json2timeline files case nps timer false ;;
  let wtimes := snd dw in
  r <- simple_perf_test wtimes 2%float ;;
  let '(perfStatus, measured_, mean_, std_) := r in
  (* Extract performance test status *)
  color <- lookup colorMap perfStatus ;;
  n <- lookup colorCounter color ;;
  Ok (setitem timersDict timer (mkTimerInfo measured_ mean_ std_ color),
      setitem colorCounter color (n + 1)%Z).

(** Body of the loop over cases, up to the construction of [testDict].
    The script stores an empty [testDict] under [name] first and fills it
    in through the alias; an exception discards [perfTests] as a whole, so
    storing the completed dictionary yields the same [perfTests]. *)
Definition case_dict (files : Files) (case : string) (nps : Z)
    (timers_ : list string) : result CaseInfo :=
  (* Extract test status *)
  ds <- json2status files case nps ;;
  let status := snd ds in
  ran <- getitem status (-1) ;;
  if (ran : bool) then
    (* Loop over timers *)
    st <- for_each (timer_body files case nps) timers_
            (([] : dict TimerInfo),
             ([("green", 0%Z); ("yellow", 0%Z); ("red", 0%Z)] : dict Z)) ;;
    let '(timersDict, colorCounter) := st in
    (* Extract overall performance tests status *)
    g <- lookup colorCounter "green" ;;
    y <- lookup colorCounter "yellow" ;;
    r <- lookup colorCounter "red" ;;
    let tally := (str g ++ "/" ++ str y ++ "/" ++ str r)%string in
    r' <- lookup colorCounter "red" ;;
    if negb (r' =? 0)%Z then
      Ok (mkCaseInfo "Passed" "green" (Some timersDict) tally "red")
    else
      y' <- lookup colorCounter "yellow" ;;
      if negb (y' =? 0)%Z then
        Ok (mkCaseInfo "Passed" "green" (Some timersDict) tally "yellow")
      else
        Ok (mkCaseInfo "Passed" "green" (Some timersDict) tally "green")
  else
    (* Failed test *)
    Ok (mkCaseInfo "Failed" "red" None "Failed" "red").

Definition case_name (case : string) (nps : Z) : string :=
  (case ++ "_np" ++ str nps)%string.

Definition case_body (files : Files) (nps : Z) (timers_ : list string)
    (perfTests_ : dict CaseInfo) (case : string) : result (dict CaseInfo) :=
  let name := case_name case nps in
  testDict <- case_dict files case nps timers_ ;;
  Ok (setitem perfTests_ name testDict).

(** Returns dictionary with performance tests. *)
Definition build_perf_tests (files : Files) (cases : list string) (nps : Z)
    (timers_ : list string) : result (dict CaseInfo) :=
  for_each (case_body files nps timers_) cases [].

End Aggregator.

(** ** [build_perf_tests_html] *)

(** The double-quote character of the HTML attributes. *)
Definition dq : string := String (Ascii.ascii_of_nat 34) EmptyString.

Definition style : string := (
"
    <style>
        table,th,td
        {
            border: 2px solid black;
            text-align: center;
        }
        table
        {
            border-collapse: collapse;
            width: 90%;
        }
        th
        {
            color: white;
            background-color: gray;
        }
        td
        {
            height: 40px;
        }
        tr:nth-child(even)
        {
            background-color: #D0D0D0;
        }
        tr:nth-child(odd)
        {
            background-color: #F0F0F0;
        }
        #green
        {
            background-color: green;
            color: white;
        }
        #yellow
        {
            background-color: yellow;
        }
        #red
        {
            background-color: red;
            color: white;
        }
    </style>
    ")%string.

Definition title : string := (
"
    <font size=" ++ dq ++ "+2" ++ dq ++ "><b>Albany Land Ice Performance Status Report on Blake</b></font>
    <br><br>
    ")%string.

Definition statusTab_open : string := (
"
    <table>
        <caption><font size=" ++ dq ++ "+2" ++ dq ++ "><b>Status</b></font></caption>
        <tr>
            <th>Name</th>
            <th>Run Test</th>
            <th>Performance Tests (Passes/Warnings/Fails)</th>
        </tr>
    ")%string.

Definition status_row (name : string) (info : CaseInfo) : string := (
"
        <tr>
            <td>" ++ name ++ "</td>
            <td id=" ++ dq ++ runTestColor info ++ dq ++ ">" ++ runTest info ++ "</td>
            <td id=" ++ dq ++ perfTestsColor info ++ dq ++ ">" ++ perfTests info ++ "</td>
        </tr>
        ")%string.

Definition statusTab_close : string := (
"
    </table>
    ")%string.

Definition failed_notice (name : string) : string := (
"
            <br><br>
            <font size=" ++ dq ++ "+1" ++ dq ++ ">" ++ name ++ " test failed...</font>
            ")%string.

Definition timerTab_open (name : string) : string := (
"
            <br><br>
            <table>
                <caption><font size=" ++ dq ++ "+2" ++ dq ++ "><b>" ++ name ++ " Timers (s)</b></font></caption>
                <tr>
                    <th>Timer</th>
                    <th>Measured</th>
                    <th>Mean</th>
                    <th>Std</th>
                </tr>
            ")%string.

Definition timerTab_close : string := (
"
            </table>
            ")%string.

Definition testLogsLink : string :=
"https://my.cdash.org/index.php?subproject=IKTBlakeALIPerformTests&project=Albany".

Definition notebookLink : string :=
"https://mybinder.org/v2/gh/ikalash/ikalash.github.io/master?filepath=ali/blake_nightly_data%2FAli_PerfTestsBlake.ipynb".

Definition subject_base : string := "Albany Land Ice Performance Tests".

Section Renderer.

(** [format_g x] is Python's ['{:g}'.format(x)]; [date] is
    [datetime.datetime.today().strftime('%m_%d_%Y')]. *)
Variable format_g : float -> string.
Variable date : string.

Definition timer_row (timer : string) (timerInfo : TimerInfo) : string := (
"
                <tr>
                    <td>" ++ timer ++ "</td>
                    <td id=" ++ dq ++ perfTestColor timerInfo ++ dq ++ ">" ++ format_g (measured timerInfo) ++ "</td>
                    <td>" ++ format_g (mean timerInfo) ++ "</td>
                    <td>" ++ format_g (std timerInfo) ++ "</td>
                </tr>
                ")%string.

Definition links : string :=
  let notebookHtmlLink :=
    ("https://ikalash.github.io/ali/blake_nightly_data/Ali_PerfTestsBlake_"
       ++ date ++ ".html")%string in (
"
    <br>
    Click <a href=" ++ dq ++ testLogsLink ++ dq ++ ">here</a> for test logs, <a href=" ++ dq ++ notebookHtmlLink ++ dq ++ ">here</a> for more details on performance or <a href=" ++ dq ++ notebookLink ++ dq ++ ">here</a> for an interactive notebook of the data.
    ")%string.

(** The status table: one row is appended per item of [perfTests]. *)
Definition status_table (perfTests_ : dict CaseInfo) : string :=
  (fold_left (fun statusTab ni => statusTab ++ status_row (fst ni) (snd ni))
     (items perfTests_) statusTab_open
   ++ statusTab_close)%string.

(** Body of the loop over a case's timers; the state is the pair of
    [subjectTestsFailed] and [timerTab]. *)
Definition timer_tab_body (st : bool * string) (ti : string * TimerInfo)
  : bool * string :=
  let '(subjectTestsFailed, timerTab) := st in
  let '(timer, timerInfo) := ti in
  let timerTab := (timerTab ++ timer_row timer timerInfo)%string in
  if String.eqb (perfTestColor timerInfo) "red" then (true, timerTab)
  else (subjectTestsFailed, timerTab).

(** Body of the second loop over cases; the state is the pair of
    [subjectTestsFailed] and [timerTabs]. *)
Definition case_tab_body (st : bool * string) (ni : string * CaseInfo)
  : result (bool * string) :=
  let '(subjectTestsFailed, timerTabs) := st in
  let '(name, info) := ni in
  if String.eqb (runTest info) "Failed" then
    Ok (true, (timerTabs ++ failed_notice name)%string)
  else
    timersDict <- match timers info with
                  | Some d => Ok d
                  | None => Raise KeyError
                  end ;;
    let '(subjectTestsFailed, timerTab) :=
      fold_left timer_tab_body (items timersDict)
        (subjectTestsFailed, timerTab_open name) in
    let timerTab := (timerTab ++ timerTab_close)%string in
    Ok (subjectTestsFailed, (timerTabs ++ timerTab)%string).

(** Returns the subject and the html string with the performance status
    report. *)
Definition build_perf_tests_html (perfTests_ : dict CaseInfo)
  : result (string * string) :=
  (* Status Table *)
  let statusTab := status_table perfTests_ in
  (* Subject and Timer Tables *)
  st <- for_each case_tab_body (items perfTests_) (false, EmptyString) ;;
  let '(subjectTestsFailed, timerTabs) := st in
  let subject := subject_base in
  let subject :=
    if (subjectTestsFailed : bool)
    then ("[ALIPerfTestsFailed] " ++ subject)%string
    else ("[ALIPerfTestsPassed] " ++ subject)%string in
  Ok (subject, (style ++ title ++ statusTab ++ timerTabs ++ links)%string).

End Renderer.

(** ** The script's entry point ([__main__]) *)

(** What the script does to the outside world: lines printed, and calls of
    the imported [html2email(subject, body, sender, recipients)]. *)
Inductive event : Type :=
| Print (line : string)
| Html2email (subject body sender_ : string) (recipients_ : list string).

(** [needle in hay] for two Python strings. *)
Fixpoint contains (needle hay : string) : bool :=
  String.prefix needle hay
  || match hay with
     | EmptyString => false
     | String _ hay' => contains needle hay'
     end.

Fixpoint endswith_sep (s : string) : bool :=
  match s with
  | EmptyString => false
  | String c EmptyString => Ascii.eqb c "/"
  | String _ s' => endswith_sep s'
  end.

(** [os.path.join(a, b)] on a POSIX system. *)
Definition path_join (a b : string) : string :=
  if String.prefix "/" b then b
  else if (String.eqb a EmptyString || endswith_sep a)%bool then (a ++ b)%string
  else (a ++ "/" ++ b)%string.

Definition sender : string := "jwatkin@sandia.gov".

Definition recipients : list string :=
  ["jwatkin@sandia.gov"; "ikalash@sandia.gov"; "mperego@sandia.gov";
   "lbertag@sandia.gov"].

Definition error_body : string := (
"
                <b>Error: Today's json file doesn't exist!</b>
                <br><br>
                Click <a href=" ++ dq ++ "https://my.cdash.org/index.php?subproject=IKTBlakeALIPerformTests&project=Albany" ++ dq ++ ">here</a> for test logs and
                <a href=" ++ dq ++ "https://github.com/ikalash/ikalash.github.io/tree/master/ali/blake_nightly_data" ++ dq ++ ">here</a> for the repo.
                ")%string.

(** The cases, the number of processes and the timers that the script
    extracts from the archives. *)
Definition main_cases : list string :=
  ["ant-2-20km_ml_line"; "ant-2-20km_muelu_line";
   "ant-2-20km_muelu_decoupled_line"].

Definition main_nps : Z := 384.

Definition main_timers : list string :=
  ["Albany: Total Time:"; "Albany: **Total Fill Time**:";
   "NOX Total Preconditioner Construction:"; "NOX Total Linear Solve:"].

Section Main.

(** The environment of a run: the imported collaborators (the archives are
    named by the list of files), [glob.glob], and
    [datetime.datetime.today().strftime]. *)
Variable Dates : Type.
Variable json2status :
  list string -> string -> Z -> result (list Dates * list bool).
Variable json2timeline :
  list string -> string -> Z -> string -> bool
  -> result (list Dates * list float).
Variable html2email : string -> string -> string -> list string -> result unit.
Variable format_g : float -> string.
Variable glob : string -> list string.
Variable strftime : string -> string.

(** The body of [if __name__ == "__main__":] on the command line [argv].
    Returns the events in the order in which they happen, and how the run
    ends: [Ok tt] when the script finishes or calls [sys.exit()], the
    exception otherwise. *)
Definition main (argv : list string) : list event * result unit :=
  (* Pass directory name *)
  let dir :=
    if (List.length argv <? 2)%nat then EmptyString
    else nth 1 argv EmptyString in
  (* Extract file names *)
  let files := glob (path_join dir "ctest-*") in
  (* If today's json file doesn't exist, send error message *)
  let date := strftime "%Y%m%d" in
  let files_with_date := filter (fun filename => contains date filename) files in
  match files_with_date with
  | [] =>
      ([Print "Today's json doesn't exist, sending error email...";
        Html2email "[ALIPerfTestsFailed] Albany Land Ice Performance Tests"
          error_body sender ["jwatkin@sandia.gov"; "ikalash@sandia.gov"]],
       _ <- html2email "[ALIPerfTestsFailed] Albany Land Ice Performance Tests"
              error_body sender ["jwatkin@sandia.gov"; "ikalash@sandia.gov"] ;;
       Ok tt)
  | _ :: _ =>
      let cases := main_cases in
      let nps := main_nps in
      let timers_ := main_timers in
      (* Run performance tests and build dictionary *)
      match build_perf_tests (list string) Dates json2status json2timeline
              files cases nps timers_ with
      | Raise e => ([Print "Running performance analysis..."], Raise e)
      | Ok perfTests_ =>
          (* Build html string *)
          match build_perf_tests_html format_g (strftime "%m_%d_%Y")
                  perfTests_ with
          | Raise e =>
              ([Print "Running performance analysis...";
                Print "Building HTML..."], Raise e)
          | Ok (subject, perfTestsHTML) =>
              (* Email status report *)
              ([Print "Running performance analysis...";
                Print "Building HTML...";
                Print "Sending email...";
                Html2email subject perfTestsHTML sender recipients],
               html2email subject perfTestsHTML sender recipients)
          end
      end
  end.

End Main.

(** ** Notions used in the statements *)

(** The status that the decision rule assigns, written with the list
    functions of the standard library rather than with Python subscripts. *)
Definition decision (wtimes : list float) (stdCoeff : float) : string :=
  let mu := Np.mean wtimes in
  let sig := Np.std wtimes in
  if (abs (last wtimes 0 - mu) <? stdCoeff * sig)%float then "pass"
  else if (abs (nth (List.length wtimes - 2) wtimes 0 - mu)
           <? stdCoeff * sig)%float
       then "warn"
       else "fail".

(** A float that is a zero (of either sign) or a NaN. *)
Definition zero_or_nan (x : float) : Prop :=
  match Prim2SF x with
  | S754_zero _ | S754_nan => True
  | _ => False
  end.

(** The float 1.0 as a sign, a mantissa and an exponent. *)
Definition SFone64 : spec_float := S754_finite false 4503599627370496 (-52).

(** The entry that [build_perf_tests] records for a case whose run
    failed: no ['timers'] key, aggregate colour red. *)
Definition failed_case : CaseInfo :=
  mkCaseInfo "Failed" "red" None "Failed" "red".

(** [colorCounter] holding the three given counts. *)
Definition color_counter (g y r : Z) : dict Z :=
  [("green", g); ("yellow", y); ("red", r)].

(** Number of occurrences of a string in a list, as a Python integer. *)
Definition occurrences (x : string) (l : list string) : Z :=
  Z.of_nat (count_occ string_dec l x).

(** The status of a classification result [(status, measured, mean, std)]. *)
Definition status_of (r : string * float * float * float) : string :=
  fst (fst (fst r)).

(** Some case of the report has a red aggregate colour, or some timer of
    some case has a red status. *)
Definition has_red (perfTests_ : dict CaseInfo) : Prop :=
  (exists name info,
      In (name, info) perfTests_ /\ perfTestsColor info = "red")
  \/ (exists name info timersDict timer timerInfo,
         In (name, info) perfTests_ /\ timers info = Some timersDict
         /\ In (timer, timerInfo) timersDict
         /\ perfTestColor timerInfo = "red").

Section TimerNotions.

Variables Files Dates : Type.
Variable json2timeline :
  Files -> string -> Z -> string -> bool -> result (list Dates * list float).

(** The entry of [testDict['timers']] that one iteration of the loop over
    timers computes for [timer]. *)
Definition timer_info (files : Files) (case : string) (nps : Z)
    (timer : string) : result TimerInfo :=
  dw <- json2timeline files case nps timer false ;;
  r <- simple_perf_test (snd dw) 2%float ;;
  let '(perfStatus, measured_, mean_, std_) := r in
  color <- lookup colorMap perfStatus ;;
  Ok (mkTimerInfo measured_ mean_ std_ color).

End TimerNotions.

(** The invariant of the entries of a report: a failed case has no timers
    and is red; a case that ran has its timers, and is red exactly when one
    of them is. *)
Definition case_wf (info : CaseInfo) : Prop :=
  (runTest info = "Failed" /\ timers info = None
   /\ perfTestsColor info = "red")
  \/ (runTest info = "Passed"
      /\ exists timersDict,
           timers info = Some timersDict
           /\ (perfTestsColor info = "red"
               <-> exists timer timerInfo,
                     In (timer, timerInfo) timersDict
                     /\ perfTestColor timerInfo = "red")).

(** Concatenation of a list of strings. *)
Definition join (l : list string) : string :=
  fold_right String.append EmptyString l.

(** What the renderer's scan looks for in one item of the report: a failed
    run, or a red timer among the timers of a case that ran. *)
Definition red_timer (ti : string * TimerInfo) : bool :=
  String.eqb (perfTestColor (snd ti)) "red".

Definition red_case (ni : string * CaseInfo) : bool :=
  String.eqb (runTest (snd ni)) "Failed"
  || match timers (snd ni) with
     | Some timersDict => existsb red_timer timersDict
     | None => false
     end.

Section AggregatorNotions.

Variables Files Dates : Type.
Variable json2status :
  Files -> string -> Z -> result (list Dates * list bool).
Variable json2timeline :
  Files -> string -> Z -> string -> bool -> result (list Dates * list float).

(** The archives hold what the aggregator needs for a case: a run outcome,
    and, when the latest run succeeded, at least 2 samples for every
    configured timer. *)
Definition case_classifies (files : Files) (nps : Z) (timers_ : list string)
    (case : string) : Prop :=
  exists dates status,
    json2status files case nps = Ok (dates, status)
    /\ status <> []
    /\ (last status false = true ->
        Forall (fun timer =>
                  exists ds wtimes,
                    json2timeline files case nps timer false = Ok (ds, wtimes)
                    /\ (2 <= List.length wtimes)%nat) timers_).

(** Why the body of the loop over cases raises [e] for a case: a
    collaborator raised it, or the case has no run outcome, or one of the
    timers of a case that ran has fewer than 2 samples. *)
Definition case_failure (files : Files) (nps : Z) (timers_ : list string)
    (case : string) (e : exn) : Prop :=
  json2status files case nps = Raise e
  \/ (exists dates, json2status files case nps = Ok (dates, [])
                    /\ e = IndexError)
  \/ (exists dates status,
         json2status files case nps = Ok (dates, status)
         /\ status <> [] /\ last status false = true
         /\ exists timer,
              In timer timers_
              /\ (json2timeline files case nps timer false = Raise e
                  \/ exists ds wtimes,
                       json2timeline files case nps timer false
                       = Ok (ds, wtimes)
                       /\ (List.length wtimes < 2)%nat /\ e = IndexError)).

End AggregatorNotions.

(** The detail section that the renderer writes for one item of the
    report. *)
Definition case_section (format_g : float -> string)
    (ni : string * CaseInfo) : string :=
  if String.eqb (runTest (snd ni)) "Failed" then failed_notice (fst ni)
  else match timers (snd ni) with
       | Some timersDict =>
           (timerTab_open (fst ni)
            ++ join (map (fun ti => timer_row format_g (fst ti) (snd ti))
                       timersDict)
            ++ timerTab_close)%string
       | None => EmptyString
       end.

(** Whether the renderer can write the detail section of an item: the item
    is marked as failed, or it has its timers. *)
Definition renderable (ni : string * CaseInfo) : bool :=
  String.eqb (runTest (snd ni)) "Failed"
  || match timers (snd ni) with Some _ => true | None => false end.

(** [needle] occurs in [hay]. *)
Definition occurs_in (needle hay : string) : Prop :=
  exists before after, hay = (before ++ needle ++ after)%string.

(** ** A small archive for the examples

    The case ["broken"] failed its latest run; every other case ran.  The
    timer ["steady"] has the series [8, 12, 8, 12] (classified 'pass'),
    ["spike"] has [10, 10, 10, 10, 15] ('warn'), and every other timer has
    the flat series [10, 10, 10, 10, 10] ('fail'). *)

Definition ex_json2status (files : unit) (case : string) (nps : Z)
  : result (list string * list bool) :=
  if String.eqb case "broken"
  then Ok (["20200101"; "20200102"], [true; false])
  else Ok (["20200101"; "20200102"], [true; true]).

Definition ex_json2timeline (files : unit) (case : string) (nps : Z)
    (timer : string) (hours : bool) : result (list string * list float) :=
  if String.eqb timer "steady"
  then Ok (["20200101"; "20200102"; "20200103"; "20200104"],
           [8; 12; 8; 12]%float)
  else if String.eqb timer "spike"
  then Ok (["20200101"; "20200102"; "20200103"; "20200104"; "20200105"],
           [10; 10; 10; 10; 15]%float)
  else Ok (["20200101"; "20200102"; "20200103"; "20200104"; "20200105"],
           [10; 10; 10; 10; 10]%float).

Definition ex_format_g (x : float) : string :=
  if (x =? 0)%float then "0" else "x".

Definition ex_date : string := "01_05_2020".

Definition ex_build (cases : list string) (timers_ : list string)
  : result (dict CaseInfo) :=
  build_perf_tests unit string ex_json2status ex_json2timeline tt cases 384
    timers_.

(** The report for the cases ["broken"] and ["ok"] with the timers
    ["steady"] and ["spike"]. *)
Definition ex_report : dict CaseInfo :=
  [("broken_np384", failed_case);
   ("ok_np384",
    mkCaseInfo "Passed" "green"
      (Some [("steady", mkTimerInfo 12 10 2 "green");
             ("spike", mkTimerInfo 15 11 2 "yellow")])
      "1/1/0" "yellow")].

(** The elements of a list in the order of their first occurrence, each
    once; [seen] holds the elements that already occurred. *)
Fixpoint first_occurrences (seen l : list string) : list string :=
  match l with
  | [] => []
  | x :: l' =>
      if existsb (String.eqb x) seen then first_occurrences seen l'
      else x :: first_occurrences (seen ++ [x]) l'
  end.

(** The files that a run works on: those that match ['ctest-*'] in the
    directory given on the command line, or in the current directory. *)
Definition run_files (glob : string -> list string) (argv : list string)
  : list string :=
  glob (path_join (if (List.length argv <? 2)%nat then EmptyString
                   else nth 1 argv EmptyString) "ctest-*").

(** A second archive, in which the timer ["short"] has a single sample. *)
Definition ex_short_json2timeline (files : unit) (case : string) (nps : Z)
    (timer : string) (hours : bool) : result (list string * list float) :=
  if String.eqb timer "short" then Ok (["20200101"], [10]%float)
  else ex_json2timeline files case nps timer hours.

(** An environment for the entry point: the directory holds two archives,
    and [html2email] delivers. *)
Definition ex_glob (pattern : string) : list string :=
  if String.eqb pattern "data/ctest-*"
  then ["data/ctest-20200104.json"; "data/ctest-20200105.json"]
  else [].

Definition ex_strftime_on (day : string) (format : string) : string :=
  if String.eqb format "%Y%m%d" then ("202001" ++ day)%string
  else ("01_" ++ day ++ "_2020")%string.

Definition ex_html2email (subject body sender_ : string)
    (recipients_ : list string) : result unit := Ok tt.

Definition ex_main (day : string) (argv : list string)
  : list event * result unit :=
  main string
    (fun files case nps => ex_json2status tt case nps)
    (fun files case nps timer hours =>
       ex_json2timeline tt case nps timer hours)
    ex_html2email ex_format_g ex_glob (ex_strftime_on day) argv.

(** * Properties *)

(** ** Python subscripts *)

Lemma bind_Ok {A B : Type} (a : A) (k : A -> result B) :
  Py.bind (Ok a) k = k a.
Proof. reflexivity. Qed.

Lemma getitem_from_end {A : Type} (l : list A) (k : nat) (d : A) :
  (1 <= k <= List.length l)%nat ->
  getitem l (- Z.of_nat k) = Ok (nth (List.length l - k) l d).
Proof.
  intros Hk. unfold getitem.
  destruct (Z.ltb_spec (- Z.of_nat k) 0) as [_ | Hge]; [| lia].
  destruct (Z.ltb_spec (- Z.of_nat k + Z.of_nat (List.length l)) 0) as [Hlt | _];
    [lia |].
  destruct (Z.leb_spec (Z.of_nat (List.length l))
              (- Z.of_nat k + Z.of_nat (List.length l))) as [Hle | _]; [lia |].
  cbn [orb].
  replace (Z.to_nat (- Z.of_nat k + Z.of_nat (List.length l)))
    with (List.length l - k)%nat by lia.
  rewrite (nth_error_nth' l d) by lia. reflexivity.
Qed.

Lemma last_as_nth {A : Type} (l : list A) (d : A) :
  last l d = nth (List.length l - 1) l d.
Proof.
  induction l as [| x [| y l'] IH]; try reflexivity.
  change (last (x :: y :: l') d) with (last (y :: l') d). rewrite IH.
  cbn [List.length Nat.sub]. rewrite Nat.sub_0_r. reflexivity.
Qed.

Lemma getitem_last {A : Type} (l : list A) (d : A) :
  (1 <= List.length l)%nat -> getitem l (-1) = Ok (last l d).
Proof.
  intros Hl. rewrite last_as_nth.
  apply (getitem_from_end l 1 d). lia.
Qed.

Lemma getitem_previous {A : Type} (l : list A) (d : A) :
  (2 <= List.length l)%nat ->
  getitem l (-2) = Ok (nth (List.length l - 2) l d).
Proof. intros Hl. apply (getitem_from_end l 2 d). lia. Qed.

(** ** The pairwise sum never runs out of fuel *)

Lemma pairwise_sum_fuel_small (fuel : nat) (a : list float) :
  (List.length a <= 128)%nat ->
  Np.pairwise_sum_fuel fuel a = Np.pairwise_sum_fuel 0 a.
Proof.
  intros Hlen. destruct fuel as [| fuel]; [reflexivity |].
  cbn [Np.pairwise_sum_fuel].
  destruct (List.length a <? 8)%nat; [reflexivity |].
  destruct (Nat.leb_spec (List.length a) 128) as [_ | Hgt]; [reflexivity | lia].
Qed.

Lemma pairwise_split_lengths (n : nat) :
  (128 < n)%nat ->
  let n2 := (n / 2 - (n / 2) mod 8)%nat in
  (0 < n2 < n)%nat.
Proof.
  intros Hn n2. subst n2.
  pose proof (Nat.div_mod_eq n 2) as H2.
  pose proof (Nat.mod_upper_bound n 2 ltac:(lia)) as H2'.
  pose proof (Nat.mod_upper_bound (n / 2) 8 ltac:(lia)) as H8.
  lia.
Qed.

(** Any two amounts of fuel that are at least the length of the array give
    the same sum: the recursion never reaches the fuel's end. *)
Lemma pairwise_sum_fuel_enough (fuel fuel' : nat) (a : list float) :
  (List.length a <= fuel)%nat -> (List.length a <= fuel')%nat ->
  Np.pairwise_sum_fuel fuel a = Np.pairwise_sum_fuel fuel' a.
Proof.
  revert fuel' a. induction fuel as [| fuel IH]; intros fuel' a Hf Hf'.
  - symmetry. apply pairwise_sum_fuel_small. lia.
  - destruct (Nat.leb_spec (List.length a) 128) as [Hle | Hgt].
    + rewrite (pairwise_sum_fuel_small (S fuel)), (pairwise_sum_fuel_small fuel');
        trivial.
    + destruct fuel' as [| fuel']; [lia |].
      cbn [Np.pairwise_sum_fuel].
      destruct (List.length a <? 8)%nat; [reflexivity |].
      destruct (List.length a <=? 128)%nat; [reflexivity |].
      pose proof (pairwise_split_lengths (List.length a) Hgt) as Hn2.
      cbv zeta in Hn2.
      set (n2 := (List.length a / 2 - (List.length a / 2) mod 8)%nat) in *.
      assert (List.length (firstn n2 a) = n2) as H1
        by (rewrite length_firstn; lia).
      assert (List.length (skipn n2 a) = (List.length a - n2)%nat) as H2
        by apply length_skipn.
      rewrite (IH fuel' (firstn n2 a)), (IH fuel' (skipn n2 a)) by lia.
      reflexivity.
Qed.

Lemma pairwise_sum_unfold (a : list float) :
  (128 < List.length a)%nat ->
  let n2 := (List.length a / 2 - (List.length a / 2) mod 8)%nat in
  Np.pairwise_sum a
  = (Np.pairwise_sum (firstn n2 a) + Np.pairwise_sum (skipn n2 a))%float.
Proof.
  intros Hgt n2. unfold Np.pairwise_sum.
  pose proof (pairwise_split_lengths (List.length a) Hgt) as Hn2.
  cbv zeta in Hn2. fold n2 in Hn2.
  destruct (List.length a) as [| n] eqn:Hlen; [lia |].
  cbn [Np.pairwise_sum_fuel]. rewrite Hlen.
  destruct (Nat.ltb_spec (S n) 8) as [Hlt | _]; [lia |].
  destruct (Nat.leb_spec (S n) 128) as [Hle | _]; [lia |].
  fold n2.
  assert (List.length (firstn n2 a) = n2) as H1
    by (rewrite length_firstn; lia).
  assert (List.length (skipn n2 a) = (S n - n2)%nat) as H2
    by (rewrite length_skipn; lia).
  rewrite (pairwise_sum_fuel_enough n (List.length (firstn n2 a)) (firstn n2 a)),
          (pairwise_sum_fuel_enough n (List.length (skipn n2 a)) (skipn n2 a))
    by lia.
  reflexivity.
Qed.

(** ** IEEE-754 facts

    The facts about binary64 arithmetic that the classifier's boundary
    behaviour rests on, derived from the specification of the primitive
    floats ([SpecFloat]). *)

Section IEEE.

Local Open Scope Z_scope.

Lemma div_eucl_exact (a b : Z) : 0 < b -> Z.div_eucl (a * b) b = (a, 0).
Proof.
  intros Hb.
  pose proof (Z.div_eucl_eq (a * b) b) as Heq.
  pose proof (Z.mod_pos_bound (a * b) b Hb) as Hbound.
  unfold Z.modulo in Hbound.
  destruct (Z.div_eucl (a * b) b) as [q r].
  specialize (Heq ltac:(lia)).
  assert (r = 0 /\ q = a) as [-> ->]; [| reflexivity].
  assert (b * (a - q) = r) by lia.
  assert (a - q = 0) by nia. split; nia.
Qed.

(** Dividing a finite float by 1.0: the quotient of the mantissas is exact,
    with one extra bit for a normal number. *)
Lemma SFdiv_core_one (m : positive) (e : Z) :
  bounded prec emax m e = true ->
  SFdiv_core_binary prec emax (Zpos m) e 4503599627370496 (-52)
  = if e =? -1074 then (Zpos m, e, loc_Exact)
    else (Zpos m~0, e - 1, loc_Exact).
Proof.
  unfold bounded, canonical_mantissa, fexp. intros Hb.
  apply andb_true_iff in Hb as [Hc He].
  apply Z.eqb_eq in Hc. apply Z.leb_le in He.
  unfold SFdiv_core_binary, fexp.
  change (Zdigits2 (Zpos m)) with (Zpos (digits2_pos m)).
  change (Zdigits2 4503599627370496) with 53.
  change (SpecFloat.emin prec emax) with (-1074) in *. change prec with 53 in *.
  set (d := Zpos (digits2_pos m)) in *.
  destruct (Z.eqb_spec e (-1074)) as [Hmin | Hnorm].
  - replace (Z.min (Z.max (d + e - (53 + -52) - 53) (-1074)) (e - -52))
      with e by lia.
    replace (e - -52 - e) with 52 by lia.
    rewrite Z.shiftl_mul_pow2 by lia.
    change (2 ^ 52) with 4503599627370496.
    rewrite div_eucl_exact by lia. reflexivity.
  - replace (Z.min (Z.max (d + e - (53 + -52) - 53) (-1074)) (e - -52))
      with (e - 1) by lia.
    replace (e - -52 - (e - 1)) with 53 by lia.
    rewrite Z.shiftl_mul_pow2 by lia.
    replace (Z.pos m * 2 ^ 53) with (Z.pos m~0 * 4503599627370496) by lia.
    rewrite div_eucl_exact by lia. reflexivity.
Qed.

Lemma SFdiv_one_finite (s : bool) (m : positive) (e : Z) :
  bounded prec emax m e = true ->
  SFdiv prec emax (S754_finite s m e) SFone64 = S754_finite s m e.
Proof.
  intros Hb. unfold SFone64, SFdiv. rewrite (SFdiv_core_one m e Hb).
  unfold bounded, canonical_mantissa, fexp in Hb.
  apply andb_true_iff in Hb as [Hc He].
  apply Z.eqb_eq in Hc.
  change (SpecFloat.emin prec emax) with (-1074) in *. change prec with 53 in *.
  rewrite xorb_false_r.
  destruct (Z.eqb_spec e (-1074)) as [Hmin | Hnorm].
  - unfold binary_round_aux, shr_fexp, fexp.
    change (Zdigits2 (Zpos m)) with (Zpos (digits2_pos m)).
    change (SpecFloat.emin 53 emax) with (-1074).
    rewrite Hc, Z.sub_diag.
    cbn [shr shr_record_of_loc shr_m loc_of_shr_record round_nearest_even].
    change (Zdigits2 (Zpos m)) with (Zpos (digits2_pos m)).
    rewrite Hc, Z.sub_diag. cbn [shr shr_record_of_loc shr_m].
    now rewrite He.
  - unfold binary_round_aux, shr_fexp, fexp.
    change (Zdigits2 (Zpos m~0)) with (Zpos (Pos.succ (digits2_pos m))).
    change (SpecFloat.emin 53 emax) with (-1074).
    replace (Z.max (Z.pos (Pos.succ (digits2_pos m)) + (e - 1) - 53) (-1074)
             - (e - 1)) with 1 by lia.
    cbn [shr iter_pos shr_1 shr_record_of_loc shr_m shr_r shr_s orb
         loc_of_shr_record round_nearest_even].
    change (Zdigits2 (Zpos m)) with (Zpos (digits2_pos m)).
    replace (e - 1 + 1) with e by lia.
    rewrite Hc, Z.sub_diag. cbn [shr shr_record_of_loc shr_m].
    now rewrite He.
Qed.

(** A finite float minus itself is +0. *)
Lemma SFsub_same_finite (s : bool) (m : positive) (e : Z) :
  SFsub prec emax (S754_finite s m e) (S754_finite s m e) = S754_zero false.
Proof.
  unfold SFsub, shl_align. rewrite Z.min_id, !Z.sub_diag. reflexivity.
Qed.

Local Open Scope float_scope.

(** No absolute value is strictly below a multiple of a zero or of a NaN:
    the product is a zero or a NaN again. *)
Lemma ltb_abs_mul_zero_or_nan (x c s : float) :
  zero_or_nan s -> (abs x <? c * s) = false.
Proof.
  unfold zero_or_nan. intros Hs.
  rewrite ltb_spec, mul_spec, abs_spec.
  destruct (Prim2SF s) as [[|] | [|] | | [|] ms es]; try contradiction;
    destruct (Prim2SF c) as [[|] | [|] | | [|] mc ec];
    destruct (Prim2SF x) as [[|] | [|] | | [|] mx ex]; reflexivity.
Qed.

Lemma eqb_zero_zero_or_nan (s : float) : (s =? 0) = true -> zero_or_nan s.
Proof.
  unfold zero_or_nan. rewrite eqb_spec.
  change (Prim2SF 0) with (S754_zero false).
  destruct (Prim2SF s) as [[|] | [|] | | [|] ms es]; cbn;
    intros H; try exact I; discriminate H.
Qed.

(** The deviation of a single sample from the mean of the one-element
    series is a zero or a NaN. *)
Lemma single_sample_deviation (x : float) :
  zero_or_nan (x - (0 + (0 + x)) / 1).
Proof.
  unfold zero_or_nan.
  rewrite sub_spec, div_spec, !add_spec.
  change (Prim2SF 0) with (S754_zero false).
  change (Prim2SF 1) with SFone64.
  pose proof (Prim2SF_valid x) as Hv.
  destruct (Prim2SF x) as [[|] | [|] | | s m e]; try exact I.
  cbn [SF64add SFadd]. unfold SF64div.
  rewrite (SFdiv_one_finite s m e Hv).
  unfold SF64sub. rewrite SFsub_same_finite. exact I.
Qed.

Lemma zero_or_nan_square (d : float) : zero_or_nan d -> zero_or_nan (d * d).
Proof.
  unfold zero_or_nan. rewrite mul_spec.
  destruct (Prim2SF d) as [[|] | [|] | | [|] m e]; intros H;
    try contradiction; exact I.
Qed.

Lemma zero_or_nan_add_zero (d : float) : zero_or_nan d -> zero_or_nan (0 + d).
Proof.
  unfold zero_or_nan. rewrite add_spec.
  change (Prim2SF 0) with (S754_zero false).
  destruct (Prim2SF d) as [[|] | [|] | | [|] m e]; intros H;
    try contradiction; exact I.
Qed.

Lemma zero_or_nan_div_one (d : float) : zero_or_nan d -> zero_or_nan (d / 1).
Proof.
  unfold zero_or_nan. rewrite div_spec.
  change (Prim2SF 1) with SFone64.
  destruct (Prim2SF d) as [[|] | [|] | | [|] m e]; intros H;
    try contradiction; exact I.
Qed.

Lemma zero_or_nan_sqrt (d : float) : zero_or_nan d -> zero_or_nan (sqrt d).
Proof.
  unfold zero_or_nan. rewrite sqrt_spec.
  destruct (Prim2SF d) as [[|] | [|] | | [|] m e]; intros H;
    try contradiction; exact I.
Qed.

(** The standard deviation of a one-element series is a zero or a NaN. *)
Lemma std_single_sample (x : float) : zero_or_nan (Np.std [x]).
Proof.
  change (Np.std [x])
    with (let d := x - (0 + (0 + x)) / 1 in sqrt ((0 + (0 + d * d)) / 1)).
  cbv zeta.
  apply zero_or_nan_sqrt, zero_or_nan_div_one.
  do 2 apply zero_or_nan_add_zero.
  apply zero_or_nan_square, single_sample_deviation.
Qed.

End IEEE.

(** ** The classifier *)

Section ClassifierFacts.

Local Open Scope float_scope.

(** The classifier on a series of at least 2 samples, subscripts resolved. *)
Lemma simple_perf_test_two_samples (wtimes : list float) (c : float) :
  (2 <= List.length wtimes)%nat ->
  simple_perf_test wtimes c
  = Ok (decision wtimes c, last wtimes 0, Np.mean wtimes, Np.std wtimes).
Proof.
  intros Hlen. unfold simple_perf_test, decision, Np.asarray.
  rewrite (getitem_last wtimes 0) by lia. rewrite bind_Ok.
  destruct (abs (last wtimes 0 - Np.mean wtimes) <? c * Np.std wtimes).
  - reflexivity.
  - rewrite (getitem_previous wtimes 0) by lia. rewrite bind_Ok.
    destruct (abs (nth (List.length wtimes - 2) wtimes 0 - Np.mean wtimes)
              <? c * Np.std wtimes); reflexivity.
Qed.

Lemma decision_status (wtimes : list float) (c : float) :
  In (decision wtimes c) ["pass"; "warn"; "fail"].
Proof.
  unfold decision.
  destruct (abs (last wtimes 0 - Np.mean wtimes) <? c * Np.std wtimes);
    [simpl; tauto |].
  destruct (abs (nth (List.length wtimes - 2) wtimes 0 - Np.mean wtimes)
            <? c * Np.std wtimes); simpl; tauto.
Qed.

(** On a series of fewer than 2 samples the second subscript is reached
    and raises. *)
Lemma simple_perf_test_short (wtimes : list float) (c : float) :
  (List.length wtimes < 2)%nat -> simple_perf_test wtimes c = Raise IndexError.
Proof.
  intros Hlen.
  destruct wtimes as [| x [| y l]]; [reflexivity | | simpl in Hlen; lia].
  unfold simple_perf_test, Np.asarray.
  change (getitem [x] (-1)) with (Ok x). rewrite bind_Ok.
  unfold Np.mean.
  change (Np.add_reduce [x] / Np.count [x]) with ((0 + (0 + x)) / 1).
  rewrite (ltb_abs_mul_zero_or_nan _ c _ (std_single_sample x)).
  reflexivity.
Qed.

(** Whenever the classifier returns, the status is one of the three. *)
Lemma simple_perf_test_status (wtimes : list float) (c : float)
    (status : string) (measured_ mean_ std_ : float) :
  simple_perf_test wtimes c = Ok (status, measured_, mean_, std_) ->
  In status ["pass"; "warn"; "fail"].
Proof.
  intros Hr.
  destruct (Nat.lt_ge_cases (List.length wtimes) 2) as [Hlt | Hge].
  - rewrite (simple_perf_test_short wtimes c Hlt) in Hr. discriminate Hr.
  - rewrite (simple_perf_test_two_samples wtimes c Hge) in Hr.
    injection Hr as <- _ _ _. apply decision_status.
Qed.

(** C1.  For every series of length at least 2 and every threshold
    coefficient, [simple_perf_test] returns [(status, series[-1], mean, std)]
    where mean and std are taken over the whole series and the status is
    'pass' if [|series[-1] - mean| < c * std] (strictly), otherwise 'warn' if
    [|series[-2] - mean| < c * std], otherwise 'fail'. *)
Theorem simple_perf_test_decision_rule (wtimes : list float) (c : float) :
  (2 <= List.length wtimes)%nat ->
  simple_perf_test wtimes c
  = Ok (if abs (last wtimes 0 - Np.mean wtimes) <? c * Np.std wtimes
        then "pass"
        else if abs (nth (List.length wtimes - 2) wtimes 0 - Np.mean wtimes)
                <? c * Np.std wtimes
             then "warn"
             else "fail",
        last wtimes 0, Np.mean wtimes, Np.std wtimes).
Proof. exact (simple_perf_test_two_samples wtimes c). Qed.

Lemma simple_perf_test_decision_rule_witness :
  simple_perf_test [10; 10; 10; 10; 15] 2 = Ok ("warn", 15, 11, 2).
Proof.
  apply (simple_perf_test_decision_rule [10; 10; 10; 10; 15] 2).
  simpl. lia.
Defined.

(** C2.  The flat series [10,10,10,10,10] with coefficient 2.0 has mean 10
    and standard deviation 0 and is classified 'fail': [0 < 0] is false. *)
Theorem flat_series_of_tens_fails :
  simple_perf_test [10; 10; 10; 10; 10] 2 = Ok ("fail", 10, 10, 0)
  /\ Np.mean [10; 10; 10; 10; 10] = 10
  /\ Np.std [10; 10; 10; 10; 10] = 0
  /\ (abs (10 - 10) <? 2 * 0) = false.
Proof. repeat split; vm_compute; reflexivity. Qed.

(** C5.  The series [10,10,10,10,15] with coefficient 2.0 has mean 11 and
    population standard deviation 2, both over the whole series; the pass
    test [|15-11| < 4] is false, the warn test [|10-11| < 4] is true, and
    the status is 'warn'. *)
Theorem spike_after_flat_history_warns :
  simple_perf_test [10; 10; 10; 10; 15] 2 = Ok ("warn", 15, 11, 2)
  /\ Np.mean [10; 10; 10; 10; 15] = 11
  /\ Np.std [10; 10; 10; 10; 15] = 2
  /\ abs (15 - 11) = 4 /\ 2 * 2 = 4 /\ (4 <? 4) = false
  /\ abs (10 - 11) = 1 /\ (1 <? 4) = true.
Proof. repeat split; vm_compute; reflexivity. Qed.

(** C3, as the specification states it, does not hold: the series
    [10,10,10,10,10,10,10,30] with coefficient 2.0 is not classified
    'fail'. *)
Lemma late_spike_is_not_fail :
  ~ (exists measured_ mean_ std_,
        simple_perf_test [10; 10; 10; 10; 10; 10; 10; 30] 2
        = Ok ("fail", measured_, mean_, std_)).
Proof. intros (m & mu & sg & H). vm_compute in H. discriminate H. Qed.

(** C3, amended.  The series [10,10,10,10,10,10,10,30] with coefficient
    2.0 has mean 12.5 and standard deviation sqrt(43.75); the latest sample
    is outside the bound ([17.5 < 2*std] is false) but the second-to-last is
    inside it ([2.5 < 2*std] is true), so the status is 'warn'. *)
Theorem late_spike_warns :
  simple_perf_test [10; 10; 10; 10; 10; 10; 10; 30] 2
  = Ok ("warn", 30, 12.5, sqrt 43.75)
  /\ (abs (30 - 12.5) <? 2 * sqrt 43.75) = false
  /\ (abs (10 - 12.5) <? 2 * sqrt 43.75) = true.
Proof. repeat split; vm_compute; reflexivity. Qed.

(** C8.  [simple_perf_test] needs a series of at least 2 samples: on every
    shorter series it fails, with the [IndexError] that Python raises for
    the subscript of the missing sample (the specification's
    InsufficientDataError); on every series of at least 2 samples it does
    not raise and returns one of 'pass', 'warn' and 'fail'. *)
Theorem simple_perf_test_needs_two_samples (wtimes : list float) (c : float) :
  ((List.length wtimes < 2)%nat ->
   simple_perf_test wtimes c = Raise IndexError)
  /\ ((2 <= List.length wtimes)%nat ->
      exists status measured_ mean_ std_,
        simple_perf_test wtimes c = Ok (status, measured_, mean_, std_)
        /\ In status ["pass"; "warn"; "fail"]).
Proof.
  split.
  - apply simple_perf_test_short.
  - intros Hlen. rewrite (simple_perf_test_two_samples wtimes c Hlen).
    exists (decision wtimes c), (last wtimes 0), (Np.mean wtimes),
      (Np.std wtimes).
    split; [reflexivity | apply decision_status].
Qed.

Lemma simple_perf_test_needs_two_samples_witness :
  simple_perf_test [10] 2 = Raise IndexError
  /\ exists status measured_ mean_ std_,
       simple_perf_test [10; 15] 2 = Ok (status, measured_, mean_, std_)
       /\ In status ["pass"; "warn"; "fail"].
Proof.
  split.
  - apply (proj1 (simple_perf_test_needs_two_samples [10] 2)). simpl. lia.
  - apply (proj2 (simple_perf_test_needs_two_samples [10; 15] 2)). simpl. lia.
Defined.

(** C10, as stated, does not hold in binary64 arithmetic: the series
    [0.1, 0.1, 0.1] has all samples equal, but the rounded mean
    [(0.1 + 0.1 + 0.1) / 3] differs from 0.1 by one unit in the last place,
    the computed standard deviation is about 1.39e-17 rather than 0, and
    with coefficient 2.0 the series is classified 'pass'. *)
Lemma flat_series_of_tenths_passes :
  let x := 0x1.999999999999ap-4 in
  (2 <= List.length [x; x; x])%nat
  /\ Forall (fun y => y = x) [x; x; x]
  /\ simple_perf_test [x; x; x] 2
     = Ok ("pass", x, 0x1.999999999999bp-4, 0x1p-56)
  /\ "pass" <> "fail".
Proof.
  cbv zeta. split; [simpl; lia |]. split; [repeat constructor |].
  split; [vm_compute; reflexivity | discriminate].
Qed.

(** C10, amended.  For every series of length at least 2 whose computed
    population standard deviation is zero, and for every threshold
    coefficient, [simple_perf_test] returns status 'fail': both strict
    comparisons against [c * 0] are false, whatever the deviations are. *)
Theorem zero_std_fails (wtimes : list float) (c : float) :
  (2 <= List.length wtimes)%nat ->
  (Np.std wtimes =? 0) = true ->
  simple_perf_test wtimes c
  = Ok ("fail", last wtimes 0, Np.mean wtimes, Np.std wtimes).
Proof.
  intros Hlen Hstd. rewrite (simple_perf_test_two_samples wtimes c Hlen).
  unfold decision.
  now rewrite !(ltb_abs_mul_zero_or_nan _ c _ (eqb_zero_zero_or_nan _ Hstd)).
Qed.

Lemma zero_std_fails_witness :
  simple_perf_test [7; 7; 7] 3
  = Ok ("fail", last [7; 7; 7] 0, Np.mean [7; 7; 7], Np.std [7; 7; 7]).
Proof.
  apply (zero_std_fails [7; 7; 7] 3); [simpl; lia | vm_compute; reflexivity].
Defined.

End ClassifierFacts.

(** ** Dictionaries *)

Section DictFacts.

Context {V : Type}.

Lemma lookup_setitem_same (d : dict V) (k : string) (v : V) :
  lookup (setitem d k v) k = Ok v.
Proof.
  induction d as [| [k' v'] d IH]; cbn.
  - now rewrite String.eqb_refl.
  - destruct (String.eqb_spec k' k) as [-> | Hne]; cbn.
    + now rewrite String.eqb_refl.
    + destruct (String.eqb_spec k' k); [contradiction | exact IH].
Qed.

Lemma lookup_setitem_other (d : dict V) (k k' : string) (v : V) :
  k' <> k -> lookup (setitem d k v) k' = lookup d k'.
Proof.
  intros Hne. induction d as [| [k0 v0] d IH]; cbn.
  - destruct (String.eqb_spec k k'); [congruence | reflexivity].
  - destruct (String.eqb_spec k0 k) as [-> | Hne0]; cbn.
    + destruct (String.eqb_spec k k'); [congruence | reflexivity].
    + destruct (String.eqb_spec k0 k'); [reflexivity | exact IH].
Qed.

Lemma In_setitem (d : dict V) (k k' : string) (v v' : V) :
  In (k', v') (setitem d k v) -> (k' = k /\ v' = v) \/ In (k', v') d.
Proof.
  induction d as [| [k0 v0] d IH]; cbn.
  - intros [H | []]. injection H as <- <-. now left.
  - destruct (String.eqb_spec k0 k) as [-> | Hne0]; cbn.
    + intros [H | H]; [injection H as <- <-; now left | now right; right].
    + intros [H | H]; [now right; left |].
      destruct (IH H) as [? | ?]; [now left | now right; right].
Qed.

Lemma lookup_In (d : dict V) (k : string) (v : V) :
  lookup d k = Ok v -> In (k, v) d.
Proof.
  induction d as [| [k0 v0] d IH]; cbn; [discriminate |].
  destruct (String.eqb_spec k0 k) as [-> | Hne].
  - intros H. injection H as <-. now left.
  - intros H. right. now apply IH.
Qed.

Lemma setitem_fresh (d : dict V) (k : string) (v : V) :
  ~ In k (keys d) -> setitem d k v = d ++ [(k, v)].
Proof.
  induction d as [| [k0 v0] d IH]; cbn; [reflexivity |].
  intros Hnin. destruct (String.eqb_spec k0 k) as [-> | Hne].
  - exfalso. apply Hnin. now left.
  - rewrite IH; [reflexivity |]. intros Hin. apply Hnin. now right.
Qed.

End DictFacts.

Lemma length_append (a b : string) :
  String.length (a ++ b) = (String.length a + String.length b)%nat.
Proof. induction a as [| c a IH]; cbn; [reflexivity | now rewrite IH]. Qed.

Lemma append_inj_l (s a b : string) : (a ++ s = b ++ s)%string -> a = b.
Proof.
  revert b. induction a as [| c a IH]; intros [| c' b] H; cbn in H.
  - reflexivity.
  - exfalso. apply (f_equal String.length) in H. cbn in H.
    rewrite length_append in H. lia.
  - exfalso. apply (f_equal String.length) in H. cbn in H.
    rewrite length_append in H. lia.
  - injection H as -> H. f_equal. now apply IH.
Qed.

Lemma Forall2_In_l {A B : Type} (R : A -> B -> Prop) (l : list A)
    (l' : list B) (x : A) :
  Forall2 R l l' -> In x l -> exists y, In (x, y) (combine l l') /\ R x y.
Proof.
  induction 1 as [| a b l l' Hab Hrest IH]; cbn; [intros [] |].
  intros [<- | Hin].
  - exists b. split; [now left | assumption].
  - destruct (IH Hin) as (y & Hy & HR). exists y. split; [now right | assumption].
Qed.

(** ** The aggregator *)

Section AggregatorFacts.

Variables Files Dates : Type.
Variable json2status :
  Files -> string -> Z -> result (list Dates * list bool).
Variable json2timeline :
  Files -> string -> Z -> string -> bool -> result (list Dates * list float).

Variable files : Files.
Variable nps : Z.

Abbreviation timer_info_ := (timer_info Files Dates json2timeline files).
Abbreviation timer_body_ := (timer_body Files Dates json2timeline files).
Abbreviation case_dict_ := (case_dict Files Dates json2status json2timeline files).
Abbreviation case_body_ := (case_body Files Dates json2status json2timeline files).
Abbreviation build_perf_tests_ :=
  (build_perf_tests Files Dates json2status json2timeline files).

(** *** The loop over timers *)

Lemma timer_body_timer_info (case timer : string)
    (timersDict : dict TimerInfo) (colorCounter : dict Z) :
  timer_body_ case nps (timersDict, colorCounter) timer
  = (ti <- timer_info_ case nps timer ;;
     n <- lookup colorCounter (perfTestColor ti) ;;
     Ok (setitem timersDict timer ti,
         setitem colorCounter (perfTestColor ti) (n + 1)%Z)).
Proof.
  unfold timer_body, timer_info.
  destruct (json2timeline files case nps timer false) as [dw | e];
    cbn [Py.bind]; [| reflexivity].
  destruct (simple_perf_test (snd dw) 2) as [[[[st m] mu] sg] | e];
    cbn [Py.bind]; [| reflexivity].
  destruct (lookup colorMap st) as [color | e]; reflexivity.
Qed.

Lemma colorMap_status (status : string) :
  In status ["pass"; "warn"; "fail"] ->
  exists color,
    lookup colorMap status = Ok color
    /\ ((status = "pass" /\ color = "green")
        \/ (status = "warn" /\ color = "yellow")
        \/ (status = "fail" /\ color = "red")).
Proof.
  intros [<- | [<- | [<- | []]]]; eexists; (split; [reflexivity |]); tauto.
Qed.

Lemma timer_info_color (case timer : string) (ti : TimerInfo) :
  timer_info_ case nps timer = Ok ti ->
  In (perfTestColor ti) ["green"; "yellow"; "red"].
Proof.
  unfold timer_info.
  destruct (json2timeline files case nps timer false) as [dw | e];
    cbn [Py.bind]; [| discriminate].
  destruct (simple_perf_test (snd dw) 2) as [[[[st m] mu] sg] | e] eqn:Hr;
    cbn [Py.bind]; [| discriminate].
  destruct (colorMap_status st (simple_perf_test_status _ _ _ _ _ _ Hr))
    as [color [-> Hcol]]; cbn [Py.bind].
  intros H. injection H as <-. cbn.
  destruct Hcol as [[_ ->] | [[_ ->] | [_ ->]]]; tauto.
Qed.

Lemma occurrences_cons (x y : string) (l : list string) :
  occurrences x (y :: l)
  = ((if String.eqb y x then 1 else 0) + occurrences x l)%Z.
Proof.
  unfold occurrences. cbn [count_occ].
  destruct (string_dec y x) as [-> | Hne].
  - rewrite String.eqb_refl. lia.
  - destruct (String.eqb_spec y x); [contradiction | lia].
Qed.

Lemma occurrences_nonneg (x : string) (l : list string) :
  (0 <= occurrences x l)%Z.
Proof. unfold occurrences. lia. Qed.

Lemma occurrences_pos (x : string) (l : list string) :
  (0 < occurrences x l)%Z <-> In x l.
Proof.
  unfold occurrences. rewrite (count_occ_In string_dec l x). lia.
Qed.

(** When every timer of the list classifies, the loop returns, the counters
    grow by the number of timers of each colour, and the dictionary holds,
    for each timer, the entry computed for it. *)
Lemma timer_loop (case : string) (timers_ : list string)
    (tis : list TimerInfo) :
  Forall2 (fun timer ti => timer_info_ case nps timer = Ok ti) timers_ tis ->
  forall (timersDict : dict TimerInfo) (g y r : Z),
  exists timersDict',
    for_each (timer_body_ case nps) timers_ (timersDict, color_counter g y r)
    = Ok (timersDict',
          color_counter
            (g + occurrences "green" (map perfTestColor tis))
            (y + occurrences "yellow" (map perfTestColor tis))
            (r + occurrences "red" (map perfTestColor tis)))
    /\ (forall t ti, In (t, ti) timersDict' ->
                     In (t, ti) timersDict \/ In (t, ti) (combine timers_ tis))
    /\ (forall t ti, In (t, ti) (combine timers_ tis) ->
                     lookup timersDict' t = Ok ti)
    /\ (forall t, ~ In t timers_ -> lookup timersDict' t = lookup timersDict t).
Proof.
  induction 1 as [| timer ti timers_ tis Hti Hrest IH]; intros timersDict g y r.
  - exists timersDict. cbn. rewrite !Z.add_0_r.
    repeat split; [tauto | intros t ti [] ].
  - cbn [for_each]. rewrite timer_body_timer_info, Hti, bind_Ok.
    pose proof (timer_info_color case timer ti Hti) as Hcol.
    cbn [map]. rewrite !occurrences_cons.
    assert (exists g' y' r',
               (n <- lookup (color_counter g y r) (perfTestColor ti) ;;
                Ok (setitem timersDict timer ti,
                    setitem (color_counter g y r) (perfTestColor ti) (n + 1)%Z))
               = Ok (setitem timersDict timer ti, color_counter g' y' r')
               /\ g' = (g + if String.eqb (perfTestColor ti) "green"
                            then 1 else 0)%Z
               /\ y' = (y + if String.eqb (perfTestColor ti) "yellow"
                            then 1 else 0)%Z
               /\ r' = (r + if String.eqb (perfTestColor ti) "red"
                            then 1 else 0)%Z)
      as (g' & y' & r' & -> & -> & -> & ->).
    { destruct Hcol as [<- | [<- | [<- | []]]]; cbn;
        do 3 eexists; (split; [reflexivity |]); repeat split; lia. }
    rewrite bind_Ok.
    destruct (IH (setitem timersDict timer ti)
                (g + (if String.eqb (perfTestColor ti) "green" then 1 else 0))%Z
                (y + (if String.eqb (perfTestColor ti) "yellow" then 1 else 0))%Z
                (r + (if String.eqb (perfTestColor ti) "red" then 1 else 0))%Z)
      as (td' & Hloop & Hfrom & Hlook & Hother).
    exists td'. rewrite Hloop, !Z.add_assoc.
    split; [reflexivity |]. split; [| split].
    + intros t0 ti0 Hin. destruct (Hfrom t0 ti0 Hin) as [Hin' | Hin'].
      * destruct (In_setitem _ _ _ _ _ Hin') as [[-> ->] | Hold].
        -- right. now left.
        -- now left.
      * right. now right.
    + intros t0 ti0 [Heq | Hin]; [| now apply Hlook].
      injection Heq as <- <-.
      destruct (in_dec string_dec timer timers_) as [Hmem | Hfresh].
      * destruct (Forall2_In_l _ _ _ timer Hrest Hmem)
          as (ti' & Hin' & Hti').
        rewrite Hti in Hti'. injection Hti' as <-.
        now apply Hlook.
      * rewrite (Hother timer Hfresh). apply lookup_setitem_same.
    + intros t0 Hnin. rewrite Hother by (intros Hin; apply Hnin; now right).
      apply lookup_setitem_other. intros ->. apply Hnin. now left.
Qed.

(** Conversely, when the loop returns, every timer of the list classified. *)
Lemma timer_loop_returns (case : string) (timers_ : list string)
    (st st' : dict TimerInfo * dict Z) :
  for_each (timer_body_ case nps) timers_ st = Ok st' ->
  exists tis,
    Forall2 (fun timer ti => timer_info_ case nps timer = Ok ti) timers_ tis.
Proof.
  revert st. induction timers_ as [| timer timers_ IH]; intros [td cc] H.
  - exists []. constructor.
  - cbn [for_each] in H. rewrite timer_body_timer_info in H.
    destruct (timer_info_ case nps timer) as [ti | e] eqn:Hti;
      cbn [Py.bind] in H; [| discriminate].
    destruct (lookup cc (perfTestColor ti)) as [n | e];
      cbn [Py.bind] in H; [| discriminate].
    destruct (IH _ H) as [tis Htis]. exists (ti :: tis).
    constructor; assumption.
Qed.

(** *** One case *)

Lemma getitem_last_app {A : Type} (l : list A) (x : A) :
  getitem (l ++ [x]) (-1) = Ok x.
Proof.
  rewrite (getitem_last _ x).
  - now rewrite last_last.
  - rewrite length_app. cbn. lia.
Qed.

Lemma case_dict_run_failed (case : string) (ds : list Dates * list bool)
    (timers_ : list string) :
  json2status files case nps = Ok ds ->
  getitem (snd ds) (-1) = Ok false ->
  case_dict_ case nps timers_ = Ok failed_case.
Proof.
  intros Hds Hlast. unfold case_dict. rewrite Hds. cbn [Py.bind].
  rewrite Hlast. reflexivity.
Qed.

Lemma lookup_counter (g y r : Z) :
  lookup (color_counter g y r) "green" = Ok g
  /\ lookup (color_counter g y r) "yellow" = Ok y
  /\ lookup (color_counter g y r) "red" = Ok r.
Proof. repeat split. Qed.

Lemma case_dict_ran (case : string) (ds : list Dates * list bool)
    (timers_ : list string) (tis : list TimerInfo) :
  json2status files case nps = Ok ds ->
  getitem (snd ds) (-1) = Ok true ->
  Forall2 (fun timer ti => timer_info_ case nps timer = Ok ti) timers_ tis ->
  exists timersDict,
    case_dict_ case nps timers_
    = Ok (mkCaseInfo "Passed" "green" (Some timersDict)
            (str (occurrences "green" (map perfTestColor tis)) ++ "/"
             ++ str (occurrences "yellow" (map perfTestColor tis)) ++ "/"
             ++ str (occurrences "red" (map perfTestColor tis)))%string
            (if negb (occurrences "red" (map perfTestColor tis) =? 0)%Z
             then "red"
             else if negb (occurrences "yellow" (map perfTestColor tis) =? 0)%Z
                  then "yellow"
                  else "green"))
    /\ (forall t ti, In (t, ti) timersDict -> In (t, ti) (combine timers_ tis))
    /\ (forall t ti, In (t, ti) (combine timers_ tis) ->
                     lookup timersDict t = Ok ti).
Proof.
  intros Hds Hlast Htis.
  destruct (timer_loop case timers_ tis Htis [] 0%Z 0%Z 0%Z)
    as (td & Hloop & Hfrom & Hlook & _).
  exists td. split; [| split].
  - unfold case_dict. rewrite Hds. cbn [Py.bind]. rewrite Hlast.
    cbn [Py.bind].
    change [("green", 0%Z); ("yellow", 0%Z); ("red", 0%Z)]
      with (color_counter 0 0 0).
    rewrite Hloop. cbn [Py.bind]. rewrite !Z.add_0_l.
    set (G := occurrences "green" (map perfTestColor tis)).
    set (Y := occurrences "yellow" (map perfTestColor tis)).
    set (R := occurrences "red" (map perfTestColor tis)).
    destruct (lookup_counter G Y R) as (-> & -> & ->). cbn [Py.bind].
    destruct (negb (R =? 0)%Z); [reflexivity |].
    destruct (negb (Y =? 0)%Z); reflexivity.
  - intros t ti Hin. destruct (Hfrom t ti Hin) as [[] | H]. exact H.
  - exact Hlook.
Qed.

Lemma Forall2_In_r {A B : Type} (R : A -> B -> Prop) (l : list A)
    (l' : list B) (y : B) :
  Forall2 R l l' -> In y l' -> exists x, In (x, y) (combine l l').
Proof.
  induction 1 as [| a b l l' Hab Hrest IH]; cbn; [intros [] |].
  intros [<- | Hin].
  - exists a. now left.
  - destruct (IH Hin) as (x & Hx). exists x. now right.
Qed.

(** Every entry that [case_dict] returns satisfies the report invariant. *)
Lemma case_dict_wf (case : string) (timers_ : list string) (info : CaseInfo) :
  case_dict_ case nps timers_ = Ok info -> case_wf info.
Proof.
  intros H.
  destruct (json2status files case nps) as [ds | e] eqn:Hds;
    [| unfold case_dict in H; rewrite Hds in H; discriminate H].
  destruct (getitem (snd ds) (-1)) as [[|] | e] eqn:Hlast;
    [| | unfold case_dict in H; rewrite Hds in H; cbn [Py.bind] in H;
         rewrite Hlast in H; discriminate H].
  - assert (exists tis,
               Forall2 (fun timer ti => timer_info_ case nps timer = Ok ti)
                 timers_ tis) as [tis Htis].
    { unfold case_dict in H. rewrite Hds in H. cbn [Py.bind] in H.
      rewrite Hlast in H. cbn [Py.bind] in H.
      destruct (for_each (timer_body_ case nps) timers_
                  (([] : dict TimerInfo),
                   ([("green", 0%Z); ("yellow", 0%Z); ("red", 0%Z)] : dict Z)))
        as [st' |] eqn:Hloop; [| discriminate H].
      exact (timer_loop_returns _ _ _ _ Hloop). }
    destruct (case_dict_ran case ds timers_ tis Hds Hlast Htis)
      as (td & Heq & Hfrom & Hlook).
    rewrite Heq in H. injection H as <-.
    right. split; [reflexivity |]. exists td. split; [reflexivity |].
    cbn [perfTestsColor].
    pose proof (occurrences_pos "red" (map perfTestColor tis)) as Hpos.
    pose proof (occurrences_nonneg "red" (map perfTestColor tis)) as Hnn.
    split.
    + intros Hred.
      assert (In "red" (map perfTestColor tis)) as Hin.
      { apply Hpos.
        destruct (Z.eqb_spec (occurrences "red" (map perfTestColor tis)) 0)
          as [Hz | Hnz]; [| lia].
        cbn [negb] in Hred.
        destruct (negb (occurrences "yellow" (map perfTestColor tis) =? 0)%Z);
          discriminate Hred. }
      apply in_map_iff in Hin as (ti & Hcol & Hti).
      destruct (Forall2_In_r _ _ _ ti Htis Hti) as (t & Ht).
      exists t, ti. split; [| exact Hcol].
      apply lookup_In, Hlook, Ht.
    + intros (t & ti & Hin & Hcol).
      assert (In "red" (map perfTestColor tis)) as Hmem.
      { apply in_map_iff. exists ti. split; [exact Hcol |].
        exact (in_combine_r _ _ _ _ (Hfrom t ti Hin)). }
      apply Hpos in Hmem.
      destruct (Z.eqb_spec (occurrences "red" (map perfTestColor tis)) 0)
        as [Hz | Hnz]; [lia | reflexivity].
  - rewrite (case_dict_run_failed case ds timers_ Hds Hlast) in H.
    injection H as <-. left. repeat split.
Qed.

(** *** The loop over cases *)

Lemma case_name_inj (c c' : string) :
  case_name c nps = case_name c' nps -> c = c'.
Proof. unfold case_name. apply append_inj_l. Qed.

Lemma case_body_eq (timers_ : list string) (acc : dict CaseInfo)
    (case : string) :
  case_body_ nps timers_ acc case
  = (testDict <- case_dict_ case nps timers_ ;;
     Ok (setitem acc (case_name case nps) testDict)).
Proof. reflexivity. Qed.

Lemma case_loop_entries (timers_ cases : list string) :
  forall (acc report : dict CaseInfo),
  for_each (case_body_ nps timers_) cases acc = Ok report ->
  (forall n i, In (n, i) report ->
               In (n, i) acc
               \/ exists c, In c cases /\ case_dict_ c nps timers_ = Ok i)
  /\ (forall c, In c cases ->
                lookup report (case_name c nps) = case_dict_ c nps timers_)
  /\ (forall k, (forall c, In c cases -> case_name c nps <> k) ->
                lookup report k = lookup acc k).
Proof.
  induction cases as [| case cases IH]; intros acc report H.
  - cbn in H. injection H as <-.
    repeat split; [now left | intros c [] ].
  - cbn [for_each] in H. rewrite case_body_eq in H.
    destruct (case_dict_ case nps timers_) as [i |] eqn:Hcase;
      cbn [Py.bind] in H; [| discriminate H].
    destruct (IH _ _ H) as (Hfrom & Hlook & Hother).
    split; [| split].
    + intros n i0 Hin. destruct (Hfrom n i0 Hin) as [Hacc | (c & Hc & Hci)].
      * destruct (In_setitem _ _ _ _ _ Hacc) as [[-> ->] | Hold].
        -- right. exists case. split; [now left | exact Hcase].
        -- now left.
      * right. exists c. split; [now right | exact Hci].
    + intros c [<- | Hin]; [| now apply Hlook].
      destruct (in_dec string_dec case cases) as [Hmem | Hfresh];
        [now apply Hlook |].
      rewrite Hother.
      * rewrite lookup_setitem_same. now rewrite Hcase.
      * intros c Hc Heq. apply case_name_inj in Heq. now subst c.
    + intros k Hk. rewrite Hother by (intros c Hc; apply Hk; now right).
      apply lookup_setitem_other. intros ->.
      apply (Hk case); [now left | reflexivity].
Qed.

Lemma case_loop_raises (timers_ cases : list string) (e : exn) :
  forall acc : dict CaseInfo,
  for_each (case_body_ nps timers_) cases acc = Raise e ->
  exists c, In c cases /\ case_dict_ c nps timers_ = Raise e.
Proof.
  induction cases as [| case cases IH]; intros acc H; [discriminate H |].
  cbn [for_each] in H. rewrite case_body_eq in H.
  destruct (case_dict_ case nps timers_) as [i | e'] eqn:Hcase;
    cbn [Py.bind] in H.
  - destruct (IH _ H) as (c & Hc & Hce). exists c. split; [now right | exact Hce].
  - injection H as ->. exists case. split; [now left | exact Hcase].
Qed.

(** For pairwise distinct cases whose names are not yet in the dictionary,
    the loop appends one entry per case, in the order of the cases. *)
Lemma case_loop_order (timers_ cases : list string) :
  NoDup cases ->
  forall (acc report : dict CaseInfo),
  (forall c, In c cases -> ~ In (case_name c nps) (keys acc)) ->
  for_each (case_body_ nps timers_) cases acc = Ok report ->
  exists infos,
    Forall2 (fun c i => case_dict_ c nps timers_ = Ok i) cases infos
    /\ report = acc ++ combine (map (fun c => case_name c nps) cases) infos.
Proof.
  induction 1 as [| case cases Hnotin Hnodup IH]; intros acc report Hfresh H.
  - cbn in H. injection H as <-. exists []. split; [constructor |].
    cbn. now rewrite app_nil_r.
  - cbn [for_each] in H. rewrite case_body_eq in H.
    destruct (case_dict_ case nps timers_) as [i |] eqn:Hcase;
      cbn [Py.bind] in H; [| discriminate H].
    rewrite setitem_fresh in H by (apply Hfresh; now left).
    assert (forall c, In c cases ->
              ~ In (case_name c nps) (keys (acc ++ [(case_name case nps, i)])))
      as Hfresh'.
    { intros c Hc. unfold keys. rewrite map_app, in_app_iff. cbn.
      intros [Hin | [Heq | []]].
      - apply (Hfresh c); [now right | exact Hin].
      - apply case_name_inj in Heq. subst c. contradiction. }
    destruct (IH _ _ Hfresh' H) as (infos & Hinfos & ->).
    exists (i :: infos). split; [now constructor |].
    cbn. now rewrite <- app_assoc.
Qed.

(** *** The renderer on a report *)

Variable format_g : float -> string.
Variable date : string.

Abbreviation timer_tab_body_ := (timer_tab_body format_g).
Abbreviation case_tab_body_ := (case_tab_body format_g).
Abbreviation build_perf_tests_html_ := (build_perf_tests_html format_g date).

Lemma append_assoc (a b c : string) : ((a ++ b) ++ c = a ++ (b ++ c))%string.
Proof. induction a as [| x a IH]; cbn; [reflexivity | now rewrite IH]. Qed.

Lemma append_nil_r (a : string) : (a ++ EmptyString)%string = a.
Proof. induction a as [| x a IH]; cbn; [reflexivity | now rewrite IH]. Qed.

Lemma fold_left_append {A : Type} (f : A -> string) (l : list A)
    (init : string) :
  fold_left (fun acc x => (acc ++ f x)%string) l init
  = (init ++ join (map f l))%string.
Proof.
  revert init. induction l as [| x l IH]; intros init; cbn.
  - now rewrite append_nil_r.
  - rewrite IH. apply append_assoc.
Qed.

Lemma status_table_rows (perfTests_ : dict CaseInfo) :
  status_table perfTests_
  = (statusTab_open
     ++ join (map (fun ni => status_row (fst ni) (snd ni)) perfTests_)
     ++ statusTab_close)%string.
Proof.
  unfold status_table, items. rewrite fold_left_append. apply append_assoc.
Qed.

Lemma timer_tab_loop (timersDict : dict TimerInfo) (b : bool) (tab : string) :
  fold_left timer_tab_body_ timersDict (b, tab)
  = (b || existsb red_timer timersDict,
     (tab ++ join (map (fun ti => timer_row format_g (fst ti) (snd ti))
                     timersDict))%string).
Proof.
  revert b tab. induction timersDict as [| [t ti] td IH]; intros b tab.
  - cbn. now rewrite orb_false_r, append_nil_r.
  - cbn [fold_left timer_tab_body existsb map join fold_right fst snd].
    unfold red_timer at 1. cbn [snd].
    destruct (String.eqb (perfTestColor ti) "red"); rewrite IH;
      rewrite append_assoc; cbn [orb];
      [now rewrite orb_true_r | reflexivity].
Qed.

(** On a report whose entries satisfy the invariant, the second loop over
    cases returns, and the flag it computes is the result of the scan. *)
Lemma case_tab_loop (perfTests_ : dict CaseInfo) :
  (forall n i, In (n, i) perfTests_ -> case_wf i) ->
  forall (b : bool) (tabs : string),
  exists tabs',
    for_each case_tab_body_ perfTests_ (b, tabs)
    = Ok (b || existsb red_case perfTests_, tabs').
Proof.
  induction perfTests_ as [| [n i] rest IH]; intros Hwf b tabs.
  - exists tabs. cbn. now rewrite orb_false_r.
  - cbn [for_each case_tab_body existsb]. unfold red_case at 1. cbn [snd].
    destruct (Hwf n i (or_introl eq_refl))
      as [(Hrun & Htim & _) | (Hrun & td & Htim & _)];
      rewrite Hrun, Htim; cbn [String.eqb Ascii.eqb Bool.eqb Py.bind orb].
    + destruct (IH (fun n' i' H => Hwf n' i' (or_intror H)) true
                  (tabs ++ failed_notice n)%string) as [tabs' ->].
      exists tabs'. now rewrite orb_true_r.
    + rewrite timer_tab_loop. cbv beta iota zeta. rewrite bind_Ok.
      unfold items.
      match goal with
      | |- exists _, for_each _ _ (?b', ?t') = _ =>
          destruct (IH (fun n' i' H => Hwf n' i' (or_intror H)) b' t')
            as [tabs' ->]
      end.
      exists tabs'. now rewrite orb_assoc.
Qed.

Lemma red_case_has_red (perfTests_ : dict CaseInfo) :
  (forall n i, In (n, i) perfTests_ -> case_wf i) ->
  existsb red_case perfTests_ = true <-> has_red perfTests_.
Proof.
  intros Hwf. rewrite existsb_exists. split.
  - intros ([n i] & Hin & Hred). unfold red_case in Hred. cbn [snd] in Hred.
    apply orb_true_iff in Hred as [Hfailed | Htimer].
    + left. exists n, i. split; [exact Hin |].
      apply String.eqb_eq in Hfailed.
      destruct (Hwf n i Hin) as [(_ & _ & Hcol) | (Hrun & _)];
        [exact Hcol | congruence].
    + right. destruct (timers i) as [td |] eqn:Htim; [| discriminate].
      apply existsb_exists in Htimer as ([t ti] & Hti & Hcol).
      exists n, i, td, t, ti. repeat split; try assumption.
      now apply String.eqb_eq in Hcol.
  - intros [(n & i & Hin & Hcol) | (n & i & td & t & ti & Hin & Htim & Hti & Hcol)].
    + exists (n, i). split; [exact Hin |]. unfold red_case. cbn [snd].
      destruct (Hwf n i Hin) as [(Hrun & _) | (Hrun & td & Htim & Hiff)].
      * now rewrite Hrun.
      * rewrite Htim. apply orb_true_iff. right.
        apply Hiff in Hcol as (t & ti & Hti & Hred).
        apply existsb_exists. exists (t, ti). split; [exact Hti |].
        unfold red_timer. cbn [snd]. now rewrite Hred.
    + exists (n, i). split; [exact Hin |]. unfold red_case. cbn [snd].
      rewrite Htim. apply orb_true_iff. right.
      apply existsb_exists. exists (t, ti). split; [exact Hti |].
      unfold red_timer. cbn [snd]. now rewrite Hcol.
Qed.

Lemma built_report_wf (cases timers_ : list string)
    (perfTests_ : dict CaseInfo) :
  build_perf_tests_ cases nps timers_ = Ok perfTests_ ->
  forall n i, In (n, i) perfTests_ -> case_wf i.
Proof.
  intros Hbuild n i Hin.
  destruct (case_loop_entries timers_ cases [] perfTests_ Hbuild)
    as (Hfrom & _ & _).
  destruct (Hfrom n i Hin) as [[] | (c & _ & Hc)].
  exact (case_dict_wf c timers_ i Hc).
Qed.

Lemma render_built_report (cases timers_ : list string)
    (perfTests_ : dict CaseInfo) :
  build_perf_tests_ cases nps timers_ = Ok perfTests_ ->
  exists timerTabs,
    build_perf_tests_html_ perfTests_
    = Ok ((if existsb red_case perfTests_
           then "[ALIPerfTestsFailed] Albany Land Ice Performance Tests"
           else "[ALIPerfTestsPassed] Albany Land Ice Performance Tests"),
          (style ++ title ++ status_table perfTests_ ++ timerTabs
           ++ links date)%string).
Proof.
  intros Hbuild.
  destruct (case_tab_loop perfTests_ (built_report_wf _ _ _ Hbuild)
              false EmptyString) as [tabs' Hloop].
  exists tabs'. unfold build_perf_tests_html, items. rewrite Hloop.
  cbn [Py.bind orb].
  destruct (existsb red_case perfTests_); reflexivity.
Qed.

(** *** Statuses and colours of the timers of a case *)

Lemma results_to_infos (case : string) (timers_ : list string)
    (rs : list (string * float * float * float)) :
  Forall2 (fun timer r =>
             exists ds wtimes,
               json2timeline files case nps timer false = Ok (ds, wtimes)
               /\ simple_perf_test wtimes 2 = Ok r) timers_ rs ->
  exists tis,
    Forall2 (fun timer ti => timer_info_ case nps timer = Ok ti) timers_ tis
    /\ occurrences "green" (map perfTestColor tis)
       = occurrences "pass" (map status_of rs)
    /\ occurrences "yellow" (map perfTestColor tis)
       = occurrences "warn" (map status_of rs)
    /\ occurrences "red" (map perfTestColor tis)
       = occurrences "fail" (map status_of rs)
    /\ (occurrences "pass" (map status_of rs)
        + occurrences "warn" (map status_of rs)
        + occurrences "fail" (map status_of rs)
        = Z.of_nat (List.length timers_))%Z.
Proof.
  induction 1 as [| timer r timers_ rs (ds & wtimes & Hseries & Hr) Hrest IH].
  - exists []. repeat split. constructor.
  - destruct IH as (tis & Htis & Hg & Hy & Hred & Hsum).
    destruct r as [[[st m] mu] sg].
    destruct (colorMap_status st (simple_perf_test_status _ _ _ _ _ _ Hr))
      as (color & Hcolor & Hcases).
    exists (mkTimerInfo m mu sg color :: tis).
    split.
    { constructor; [| exact Htis].
      unfold timer_info. rewrite Hseries. cbn [Py.bind snd]. rewrite Hr.
      cbn [Py.bind]. rewrite Hcolor. reflexivity. }
    cbn [map perfTestColor status_of fst List.length].
    rewrite !occurrences_cons, Hg, Hy, Hred, Nat2Z.inj_succ, <- Hsum.
    destruct Hcases as [[-> ->] | [[-> ->] | [-> ->]]];
      cbn [String.eqb Ascii.eqb Bool.eqb]; repeat split; lia.
Qed.

(** *** The claims about the aggregator and the renderer *)

(** C6.  A case whose latest run outcome is failure is recorded with no
    timer entries and a red aggregate colour, whatever the configured
    timers are, and the loop goes on with the remaining cases: when the
    aggregator returns, the report holds the failed entry and the entry of
    every configured case; when it raises, the exception comes from the
    classification of another case, never from the failed run. *)
Theorem failed_run_is_isolated (cases timers_ : list string) (case : string)
    (dates : list Dates) (status : list bool) :
  In case cases ->
  json2status files case nps = Ok (dates, status ++ [false]) ->
  (forall timers', case_dict_ case nps timers' = Ok failed_case)
  /\ timers failed_case = None
  /\ perfTestsColor failed_case = "red"
  /\ (forall rest acc,
        for_each (case_body_ nps timers_) (case :: rest) acc
        = for_each (case_body_ nps timers_) rest
            (setitem acc (case_name case nps) failed_case))
  /\ match build_perf_tests_ cases nps timers_ with
     | Ok perfTests_ =>
         lookup perfTests_ (case_name case nps) = Ok failed_case
         /\ forall c, In c cases ->
                      lookup perfTests_ (case_name c nps)
                      = case_dict_ c nps timers_
     | Raise e =>
         exists c, In c cases /\ c <> case /\ case_dict_ c nps timers_ = Raise e
     end.
Proof.
  intros Hin Hstatus.
  assert (forall timers', case_dict_ case nps timers' = Ok failed_case)
    as Hfailed.
  { intros timers'. apply (case_dict_run_failed case _ timers' Hstatus).
    apply getitem_last_app. }
  split; [exact Hfailed |]. split; [reflexivity |]. split; [reflexivity |].
  split.
  - intros rest acc. cbn [for_each]. rewrite case_body_eq, Hfailed.
    reflexivity.
  - destruct (build_perf_tests_ cases nps timers_) as [perfTests_ | e]
      eqn:Hbuild.
    + destruct (case_loop_entries timers_ cases [] perfTests_ Hbuild)
        as (_ & Hlook & _).
      split; [| exact Hlook]. rewrite (Hlook case Hin). apply Hfailed.
    + destruct (case_loop_raises timers_ cases e [] Hbuild) as (c & Hc & Hce).
      exists c. repeat split; try assumption.
      intros ->. rewrite Hfailed in Hce. discriminate Hce.
Qed.

(** C7.  For a case that ran and whose timers all classify, the tally of
    the entry counts the timers whose status is 'pass', 'warn' and 'fail',
    and the aggregate colour is red if at least one timer failed, else
    yellow if at least one timer warned, else green. *)
Theorem ran_case_tally_and_color (case : string) (dates : list Dates)
    (status : list bool) (timers_ : list string)
    (rs : list (string * float * float * float)) :
  json2status files case nps = Ok (dates, status ++ [true]) ->
  Forall2 (fun timer r =>
             exists ds wtimes,
               json2timeline files case nps timer false = Ok (ds, wtimes)
               /\ simple_perf_test wtimes 2 = Ok r) timers_ rs ->
  exists timersDict color,
    case_dict_ case nps timers_
    = Ok (mkCaseInfo "Passed" "green" (Some timersDict)
            (str (occurrences "pass" (map status_of rs)) ++ "/"
             ++ str (occurrences "warn" (map status_of rs)) ++ "/"
             ++ str (occurrences "fail" (map status_of rs)))%string
            color)
    /\ (occurrences "pass" (map status_of rs)
        + occurrences "warn" (map status_of rs)
        + occurrences "fail" (map status_of rs)
        = Z.of_nat (List.length timers_))%Z
    /\ (In "fail" (map status_of rs) -> color = "red")
    /\ (~ In "fail" (map status_of rs) -> In "warn" (map status_of rs) ->
        color = "yellow")
    /\ (~ In "fail" (map status_of rs) -> ~ In "warn" (map status_of rs) ->
        color = "green").
Proof.
  intros Hstatus Hrs.
  destruct (results_to_infos case timers_ rs Hrs)
    as (tis & Htis & Hg & Hy & Hr & Hsum).
  destruct (case_dict_ran case _ timers_ tis Hstatus
              (getitem_last_app status true) Htis) as (td & Heq & _ & _).
  rewrite Hg, Hy, Hr in Heq.
  exists td. eexists. split; [exact Heq |]. split; [exact Hsum |].
  assert (In "fail" (map status_of rs)
          <-> occurrences "fail" (map status_of rs) <> 0%Z) as Hfail.
  { rewrite <- occurrences_pos.
    pose proof (occurrences_nonneg "fail" (map status_of rs)). lia. }
  assert (In "warn" (map status_of rs)
          <-> occurrences "warn" (map status_of rs) <> 0%Z) as Hwarn.
  { rewrite <- occurrences_pos.
    pose proof (occurrences_nonneg "warn" (map status_of rs)). lia. }
  destruct (Z.eqb_spec (occurrences "fail" (map status_of rs)) 0)
    as [Hf0 | Hf1];
    destruct (Z.eqb_spec (occurrences "warn" (map status_of rs)) 0)
      as [Hw0 | Hw1]; cbn [negb]; repeat split; intros;
    try reflexivity; exfalso; tauto.
Qed.

(** C4.  For every report that the aggregator returns, the renderer
    returns, and the subject carries the 'failed' tag if and only if some
    case's aggregate colour is red or some timer's status is red anywhere
    in the report; if no red exists, the subject carries the 'passed' tag.
    Every case whose run did not succeed has a red aggregate colour. *)
Theorem subject_tag_follows_red (cases timers_ : list string)
    (perfTests_ : dict CaseInfo) :
  build_perf_tests_ cases nps timers_ = Ok perfTests_ ->
  exists subject body,
    build_perf_tests_html_ perfTests_ = Ok (subject, body)
    /\ (subject = "[ALIPerfTestsFailed] Albany Land Ice Performance Tests"
        <-> has_red perfTests_)
    /\ (~ has_red perfTests_ ->
        subject = "[ALIPerfTestsPassed] Albany Land Ice Performance Tests")
    /\ (forall name info,
          In (name, info) perfTests_ -> runTest info = "Failed" ->
          perfTestsColor info = "red").
Proof.
  intros Hbuild.
  destruct (render_built_report cases timers_ perfTests_ Hbuild)
    as [tabs Hrender].
  pose proof (built_report_wf _ _ _ Hbuild) as Hwf.
  pose proof (red_case_has_red perfTests_ Hwf) as Hscan.
  do 2 eexists. split; [exact Hrender |].
  destruct (existsb red_case perfTests_); split; [| split | | split].
  - split; [intros _; now apply Hscan | reflexivity].
  - intros Hno. exfalso. apply Hno. now apply Hscan.
  - intros name info Hin Hrun.
    destruct (Hwf name info Hin) as [(_ & _ & Hcol) | (Hrun' & _)];
      [exact Hcol | congruence].
  - split; [discriminate |]. intros Hred. apply Hscan in Hred.
    discriminate Hred.
  - reflexivity.
  - intros name info Hin Hrun.
    destruct (Hwf name info Hin) as [(_ & _ & Hcol) | (Hrun' & _)];
      [exact Hcol | congruence].
Qed.

Lemma map_row_combine (cases : list string) (infos : list CaseInfo) :
  map (fun ni => status_row (fst ni) (snd ni))
    (combine (map (fun c => case_name c nps) cases) infos)
  = map (fun ci => status_row (case_name (fst ci) nps) (snd ci))
      (combine cases infos).
Proof.
  revert infos. induction cases as [| c cases IH]; intros [| i infos]; cbn;
    try reflexivity.
  now rewrite IH.
Qed.

Lemma keys_combine {V : Type} (ks : list string) (vs : list V) :
  List.length ks = List.length vs -> keys (combine ks vs) = ks.
Proof.
  revert vs. induction ks as [| k ks IH]; intros [| v vs] Hlen; cbn in *;
    try reflexivity; try discriminate.
  f_equal. apply IH. lia.
Qed.

(** C9, amended.  For every configured list of pairwise distinct cases for
    which the aggregator returns, the report's iteration order equals the
    configuration order, entry by entry, and the rendered status table
    consists of one row per case in exactly that order. *)
Theorem report_keeps_configuration_order (cases timers_ : list string)
    (perfTests_ : dict CaseInfo) :
  NoDup cases ->
  build_perf_tests_ cases nps timers_ = Ok perfTests_ ->
  keys perfTests_ = map (fun c => case_name c nps) cases
  /\ exists infos,
       Forall2 (fun c i => case_dict_ c nps timers_ = Ok i) cases infos
       /\ perfTests_ = combine (map (fun c => case_name c nps) cases) infos
       /\ status_table perfTests_
          = (statusTab_open
             ++ join (map (fun ci => status_row (case_name (fst ci) nps)
                                       (snd ci)) (combine cases infos))
             ++ statusTab_close)%string
       /\ exists subject timerTabs,
            build_perf_tests_html_ perfTests_
            = Ok (subject,
                  (style ++ title ++ status_table perfTests_ ++ timerTabs
                   ++ links date)%string).
Proof.
  intros Hnodup Hbuild.
  destruct (case_loop_order timers_ cases Hnodup [] perfTests_
              (fun c _ H => H) Hbuild) as (infos & Hinfos & Heq).
  cbn [app] in Heq.
  assert (keys perfTests_ = map (fun c => case_name c nps) cases) as Hkeys.
  { rewrite Heq. apply keys_combine. rewrite length_map.
    exact (Forall2_length Hinfos). }
  split; [exact Hkeys |].
  exists infos. split; [exact Hinfos |]. split; [exact Heq |]. split.
  - rewrite status_table_rows. rewrite Heq at 1. now rewrite map_row_combine.
  - destruct (render_built_report cases timers_ perfTests_ Hbuild)
      as [tabs Hrender].
    eexists. exists tabs. exact Hrender.
Qed.

End AggregatorFacts.

(** ** The claims on the example archive *)

Lemma ex_build_report :
  ex_build ["broken"; "ok"] ["steady"; "spike"] = Ok ex_report.
Proof. vm_compute. reflexivity. Qed.

Lemma failed_run_is_isolated_witness :
  (forall timers',
      case_dict unit string ex_json2status ex_json2timeline tt "broken" 384
        timers' = Ok failed_case)
  /\ timers failed_case = None
  /\ perfTestsColor failed_case = "red"
  /\ (forall rest acc,
        for_each (case_body unit string ex_json2status ex_json2timeline tt 384
                    ["steady"; "spike"]) ("broken" :: rest) acc
        = for_each (case_body unit string ex_json2status ex_json2timeline tt
                      384 ["steady"; "spike"]) rest
            (setitem acc (case_name "broken" 384) failed_case))
  /\ match ex_build ["broken"; "ok"] ["steady"; "spike"] with
     | Ok perfTests_ =>
         lookup perfTests_ (case_name "broken" 384) = Ok failed_case
         /\ forall c, In c ["broken"; "ok"] ->
                      lookup perfTests_ (case_name c 384)
                      = case_dict unit string ex_json2status ex_json2timeline
                          tt c 384 ["steady"; "spike"]
     | Raise e =>
         exists c,
           In c ["broken"; "ok"] /\ c <> "broken"
           /\ case_dict unit string ex_json2status ex_json2timeline tt c 384
                ["steady"; "spike"] = Raise e
     end.
Proof.
  apply (failed_run_is_isolated unit string ex_json2status ex_json2timeline
           tt 384 ["broken"; "ok"] ["steady"; "spike"] "broken"
           ["20200101"; "20200102"] [true]).
  - simpl. tauto.
  - reflexivity.
Defined.

Lemma ran_case_tally_and_color_witness :
  let rs := [("pass", 12, 10, 2); ("warn", 15, 11, 2); ("fail", 10, 10, 0);
             ("warn", 15, 11, 2)]%float in
  exists timersDict color,
    case_dict unit string ex_json2status ex_json2timeline tt "ok" 384
      ["steady"; "spike"; "flat"; "spike"]
    = Ok (mkCaseInfo "Passed" "green" (Some timersDict)
            (str (occurrences "pass" (map status_of rs)) ++ "/"
             ++ str (occurrences "warn" (map status_of rs)) ++ "/"
             ++ str (occurrences "fail" (map status_of rs)))%string
            color)
    /\ (occurrences "pass" (map status_of rs)
        + occurrences "warn" (map status_of rs)
        + occurrences "fail" (map status_of rs)
        = Z.of_nat (List.length ["steady"; "spike"; "flat"; "spike"]))%Z
    /\ (In "fail" (map status_of rs) -> color = "red")
    /\ (~ In "fail" (map status_of rs) -> In "warn" (map status_of rs) ->
        color = "yellow")
    /\ (~ In "fail" (map status_of rs) -> ~ In "warn" (map status_of rs) ->
        color = "green").
Proof.
  cbv zeta.
  apply (ran_case_tally_and_color unit string ex_json2status ex_json2timeline
           tt 384 "ok" ["20200101"; "20200102"] [true]
           ["steady"; "spike"; "flat"; "spike"]).
  - reflexivity.
  - repeat constructor; do 2 eexists; split; vm_compute; reflexivity.
Defined.

Lemma subject_tag_follows_red_witness :
  exists subject body,
    build_perf_tests_html ex_format_g ex_date ex_report = Ok (subject, body)
    /\ (subject = "[ALIPerfTestsFailed] Albany Land Ice Performance Tests"
        <-> has_red ex_report)
    /\ (~ has_red ex_report ->
        subject = "[ALIPerfTestsPassed] Albany Land Ice Performance Tests")
    /\ (forall name info,
          In (name, info) ex_report -> runTest info = "Failed" ->
          perfTestsColor info = "red").
Proof.
  apply (subject_tag_follows_red unit string ex_json2status ex_json2timeline
           tt 384 ex_format_g ex_date ["broken"; "ok"] ["steady"; "spike"]).
  vm_compute. reflexivity.
Defined.

(** C9, as stated, does not hold for a configuration that lists a case
    twice: the report is keyed by the case name, so the second occurrence
    overwrites the entry of the first, and the report and the status table
    have one entry where the configuration has two. *)
Lemma repeated_case_has_one_row :
  exists perfTests_,
    ex_build ["broken"; "broken"] [] = Ok perfTests_
    /\ keys perfTests_ = ["broken_np384"]
    /\ keys perfTests_ <> map (fun c => case_name c 384) ["broken"; "broken"]
    /\ status_table perfTests_
       = (statusTab_open ++ status_row "broken_np384" failed_case
          ++ statusTab_close)%string.
Proof.
  exists [("broken_np384", failed_case)].
  split; [vm_compute; reflexivity |].
  split; [reflexivity |].
  split; [vm_compute; discriminate | vm_compute; reflexivity].
Qed.

Lemma report_keeps_configuration_order_witness :
  keys ex_report = map (fun c => case_name c 384) ["broken"; "ok"]
  /\ exists infos,
       Forall2 (fun c i =>
                  case_dict unit string ex_json2status ex_json2timeline tt c
                    384 ["steady"; "spike"] = Ok i) ["broken"; "ok"] infos
       /\ ex_report
          = combine (map (fun c => case_name c 384) ["broken"; "ok"]) infos
       /\ status_table ex_report
          = (statusTab_open
             ++ join (map (fun ci => status_row (case_name (fst ci) 384)
                                       (snd ci))
                        (combine ["broken"; "ok"] infos))
             ++ statusTab_close)%string
       /\ exists subject timerTabs,
            build_perf_tests_html ex_format_g ex_date ex_report
            = Ok (subject,
                  (style ++ title ++ status_table ex_report ++ timerTabs
                   ++ links ex_date)%string).
Proof.
  apply (report_keeps_configuration_order unit string ex_json2status
           ex_json2timeline tt 384 ex_format_g ex_date ["broken"; "ok"]
           ["steady"; "spike"]).
  - repeat constructor; simpl; intuition discriminate.
  - vm_compute. reflexivity.
Defined.

(** * Further properties of the script *)

(** ** More IEEE-754 facts *)

Section MoreIEEE.

(** Rounding keeps the sign it is given. *)
Lemma binary_round_aux_sign (s : bool) (m e : Z) (l : location) :
  match binary_round_aux prec emax s m e l with
  | S754_zero s' | S754_infinity s' | S754_finite s' _ _ => s' = s
  | S754_nan => True
  end.
Proof.
  unfold binary_round_aux.
  destruct (shr_fexp prec emax m e l) as [mrs e'].
  destruct (shr_fexp prec emax _ e' loc_Exact) as [mrs' e''].
  destruct (shr_m mrs') as [| p | p]; [reflexivity | | exact I].
  destruct (e'' <=? emax - prec)%Z; reflexivity.
Qed.

(** A square root is never negative: it is a NaN, a zero, or positive. *)
Lemma SFsqrt_sign (v : spec_float) :
  match SFsqrt prec emax v with
  | S754_infinity s | S754_finite s _ _ => s = false
  | _ => True
  end.
Proof.
  destruct v as [[|] | [|] | | [|] m e]; cbn [SFsqrt]; trivial.
  destruct (SFsqrt_core_binary prec emax (Z.pos m) e) as [[mz ez] lz].
  pose proof (binary_round_aux_sign false mz ez lz) as H.
  destruct (binary_round_aux prec emax false mz ez lz); trivial.
Qed.

(** An absolute value can only be strictly below [c * sqrt v] when both
    [c] and [sqrt v] are strictly positive. *)
Lemma SF_threshold_positive (x c v : spec_float) :
  SFltb (SFabs x) (SFmul prec emax c (SFsqrt prec emax v)) = true ->
  SFltb (S754_zero false) c = true
  /\ SFltb (S754_zero false) (SFsqrt prec emax v) = true.
Proof.
  pose proof (SFsqrt_sign v) as Hs.
  destruct (SFsqrt prec emax v) as [ss | ss | | ss ms es];
    try subst ss;
    destruct c as [[|] | [|] | | [|] mc ec]; cbn [SFmul xorb];
    try (destruct x as [[|] | [|] | | [|] mx ex]; cbn; intros H;
         try discriminate H; split; reflexivity).
  pose proof (binary_round_aux_sign true (Z.pos (mc * ms)) (ec + es)
                loc_Exact) as Hr.
  destruct (binary_round_aux prec emax true (Z.pos (mc * ms)) (ec + es)
              loc_Exact) as [sr | sr | | sr mr er]; try subst sr;
    destruct x as [[|] | [|] | | [|] mx ex]; cbn; intros H;
    discriminate H.
Qed.

Local Open Scope float_scope.

Lemma threshold_positive (x c v : float) :
  (abs x <? c * sqrt v) = true -> (0 <? c) = true /\ (0 <? sqrt v) = true.
Proof.
  rewrite !ltb_spec, mul_spec, abs_spec, sqrt_spec.
  change (Prim2SF 0) with (S754_zero false).
  apply SF_threshold_positive.
Qed.

(** NaN is the only float that differs from itself. *)
Lemma is_nan_spec (x : float) : is_nan x = true <-> Prim2SF x = S754_nan.
Proof.
  unfold is_nan. rewrite eqb_spec. unfold SFeqb, SFcompare.
  destruct (Prim2SF x) as [[|] | [|] | | [|] m e];
    rewrite ?Z.compare_refl, ?Pos.compare_cont_refl; cbn;
    split; intros H; try discriminate H; reflexivity.
Qed.

Lemma is_nan_add (a b : float) :
  is_nan a = true \/ is_nan b = true -> is_nan (a + b) = true.
Proof.
  rewrite !is_nan_spec, add_spec.
  intros [-> | ->]; [reflexivity |].
  destruct (Prim2SF a) as [[|] | [|] | | [|] m e]; reflexivity.
Qed.

Lemma is_nan_div_l (a b : float) : is_nan a = true -> is_nan (a / b) = true.
Proof. rewrite !is_nan_spec, div_spec. intros ->. reflexivity. Qed.

Lemma ltb_abs_sub_nan (x mu t : float) :
  is_nan mu = true -> (abs (x - mu) <? t) = false.
Proof.
  rewrite is_nan_spec, ltb_spec, abs_spec, sub_spec. intros ->.
  destruct (Prim2SF x) as [[|] | [|] | | [|] m e]; reflexivity.
Qed.

End MoreIEEE.

(** ** NaN samples *)

Section NaNSamples.

Local Open Scope float_scope.

Abbreviation NaN_in := (Exists (fun x : float => is_nan x = true)).

Lemma sum_loop_nan (a : list float) :
  forall res, is_nan res = true \/ NaN_in a -> is_nan (Np.sum_loop res a) = true.
Proof.
  induction a as [| x a IH]; intros res [Hres | Hin]; cbn [Np.sum_loop].
  - exact Hres.
  - inversion Hin.
  - apply IH. left. apply is_nan_add. now left.
  - apply IH. inversion Hin as [? ? Hx | ? ? Ha]; subst.
    + left. apply is_nan_add. now right.
    + now right.
Qed.

(** Finds the NaN among the hypotheses, under sums and disjunctions. *)
Ltac find_nan :=
  first [ assumption
        | apply is_nan_add; first [left; assumption | right; assumption]
        | apply is_nan_add; first [left; find_nan | right; find_nan]
        | left; find_nan
        | right; find_nan ].

Lemma NaN_in_8 (r0 r1 r2 r3 r4 r5 r6 r7 : float) :
  NaN_in [r0; r1; r2; r3; r4; r5; r6; r7]
  <-> is_nan r0 = true \/ is_nan r1 = true \/ is_nan r2 = true
      \/ is_nan r3 = true \/ is_nan r4 = true \/ is_nan r5 = true
      \/ is_nan r6 = true \/ is_nan r7 = true.
Proof. rewrite !Exists_cons, Exists_nil. tauto. Qed.

(** The combination of the 8 partial sums is a NaN as soon as one is. *)
Lemma combine_nan (r0 r1 r2 r3 r4 r5 r6 r7 : float) :
  NaN_in [r0; r1; r2; r3; r4; r5; r6; r7] ->
  is_nan (((r0 + r1) + (r2 + r3)) + ((r4 + r5) + (r6 + r7))) = true.
Proof.
  rewrite NaN_in_8.
  intros [H | [H | [H | [H | [H | [H | [H | H]]]]]]]; find_nan.
Qed.

Lemma sum_unrolled_nan (n : nat) :
  forall (a : list float) (r0 r1 r2 r3 r4 r5 r6 r7 : float),
  (List.length a <= n)%nat ->
  NaN_in [r0; r1; r2; r3; r4; r5; r6; r7] \/ NaN_in a ->
  is_nan (Np.sum_unrolled r0 r1 r2 r3 r4 r5 r6 r7 a) = true.
Proof.
  induction n as [| n IH]; intros a r0 r1 r2 r3 r4 r5 r6 r7 Hlen H.
  - destruct a; [| cbn in Hlen; lia]. cbn.
    destruct H as [H | H]; [now apply combine_nan | inversion H].
  - assert (forall rest,
              NaN_in [r0; r1; r2; r3; r4; r5; r6; r7] \/ NaN_in rest ->
              is_nan (Np.sum_loop
                        (((r0 + r1) + (r2 + r3)) + ((r4 + r5) + (r6 + r7)))
                        rest) = true) as Hshort.
    { intros rest [Hacc | Hrest]; apply sum_loop_nan;
        [left; now apply combine_nan | now right]. }
    destruct a as [| x0 [| x1 [| x2 [| x3 [| x4 [| x5 [| x6 [| x7 a']]]]]]]];
      cbn [Np.sum_unrolled]; try (apply Hshort; exact H).
    apply IH; [cbn in Hlen; lia |].
    rewrite NaN_in_8.
    change (x0 :: x1 :: x2 :: x3 :: x4 :: x5 :: x6 :: x7 :: a')
      with ([x0; x1; x2; x3; x4; x5; x6; x7] ++ a') in H.
    rewrite Exists_app, !NaN_in_8 in H.
    destruct H as [[H | [H | [H | [H | [H | [H | [H | H]]]]]]]
                  | [[H | [H | [H | [H | [H | [H | [H | H]]]]]]] | H]];
      find_nan.
Qed.

Lemma sum_block_nan (a : list float) :
  NaN_in a -> is_nan (Np.sum_block a) = true.
Proof.
  intros H.
  destruct a as [| x0 [| x1 [| x2 [| x3 [| x4 [| x5 [| x6 [| x7 a']]]]]]]];
    cbn [Np.sum_block];
    try (apply sum_loop_nan; now right).
  apply (sum_unrolled_nan (List.length a')); [lia |].
  change (x0 :: x1 :: x2 :: x3 :: x4 :: x5 :: x6 :: x7 :: a')
    with ([x0; x1; x2; x3; x4; x5; x6; x7] ++ a') in H.
  now apply Exists_app in H.
Qed.

Lemma pairwise_sum_fuel_nan (fuel : nat) :
  forall a, NaN_in a -> is_nan (Np.pairwise_sum_fuel fuel a) = true.
Proof.
  induction fuel as [| fuel IH]; intros a H; cbn [Np.pairwise_sum_fuel].
  - destruct (List.length a <? 8)%nat; [apply sum_loop_nan; now right |].
    destruct (List.length a <=? 128)%nat; now apply sum_block_nan.
  - destruct (List.length a <? 8)%nat; [apply sum_loop_nan; now right |].
    destruct (List.length a <=? 128)%nat; [now apply sum_block_nan |].
    set (n2 := (List.length a / 2 - (List.length a / 2) mod 8)%nat).
    apply is_nan_add. rewrite <- (firstn_skipn n2 a) in H.
    apply Exists_app in H as [H | H]; [left | right]; now apply IH.
Qed.

(** The mean of a series that holds a NaN is a NaN. *)
Lemma mean_nan (a : list float) : NaN_in a -> is_nan (Np.mean a) = true.
Proof.
  intros H. unfold Np.mean, Np.add_reduce. apply is_nan_div_l, is_nan_add.
  right. now apply pairwise_sum_fuel_nan.
Qed.

End NaNSamples.

(** ** More about the classifier *)

Section ClassifierMore.

Local Open Scope float_scope.

(** X1.  [simple_perf_test] returns 'pass' or 'warn' only when the
    threshold coefficient and the computed standard deviation are both
    strictly positive: with a zero, negative or NaN coefficient, or a zero
    or NaN standard deviation, every series is classified 'fail'. *)
Theorem pass_or_warn_needs_positive_threshold (wtimes : list float)
    (c : float) (status : string) (measured_ mean_ std_ : float) :
  simple_perf_test wtimes c = Ok (status, measured_, mean_, std_) ->
  status <> "fail" ->
  (0 <? c) = true /\ (0 <? std_) = true.
Proof.
  intros Hr Hstatus.
  destruct (Nat.lt_ge_cases (List.length wtimes) 2) as [Hlt | Hge].
  - rewrite (simple_perf_test_short wtimes c Hlt) in Hr. discriminate Hr.
  - rewrite (simple_perf_test_two_samples wtimes c Hge) in Hr.
    injection Hr as <- _ _ <-. unfold decision in Hstatus.
    unfold Np.std in *.
    destruct (abs (last wtimes 0 - Np.mean wtimes)
              <? c * sqrt (Np.var wtimes)) eqn:Hpass;
      [exact (threshold_positive _ _ _ Hpass) |].
    destruct (abs (nth (List.length wtimes - 2) wtimes 0 - Np.mean wtimes)
              <? c * sqrt (Np.var wtimes)) eqn:Hwarn;
      [exact (threshold_positive _ _ _ Hwarn) | contradiction].
Qed.

Lemma pass_or_warn_needs_positive_threshold_witness :
  (0 <? 2) = true /\ (0 <? 2) = true.
Proof.
  apply (pass_or_warn_needs_positive_threshold [10; 10; 10; 10; 15] 2
           "warn" 15 11 2).
  - vm_compute. reflexivity.
  - discriminate.
Defined.

(** X2.  A series of at least 2 samples that holds a NaN anywhere is
    classified 'fail' for every threshold coefficient: the mean is a NaN,
    and no comparison with a NaN holds. *)
Theorem nan_sample_fails (wtimes : list float) (c : float) :
  (2 <= List.length wtimes)%nat ->
  Exists (fun x => is_nan x = true) wtimes ->
  is_nan (Np.mean wtimes) = true
  /\ simple_perf_test wtimes c
     = Ok ("fail", last wtimes 0, Np.mean wtimes, Np.std wtimes).
Proof.
  intros Hlen Hnan. pose proof (mean_nan wtimes Hnan) as Hmean.
  split; [exact Hmean |].
  rewrite (simple_perf_test_two_samples wtimes c Hlen). unfold decision.
  now rewrite !(ltb_abs_sub_nan _ _ _ Hmean).
Qed.

Lemma nan_sample_fails_witness :
  is_nan (Np.mean [10; nan; 10; 10]) = true
  /\ simple_perf_test [10; nan; 10; 10] 2
     = Ok ("fail", last [10; nan; 10; 10] 0, Np.mean [10; nan; 10; 10],
           Np.std [10; nan; 10; 10]).
Proof.
  apply (nan_sample_fails [10; nan; 10; 10] 2).
  - simpl. lia.
  - apply Exists_cons_tl, Exists_cons_hd. vm_compute. reflexivity.
Defined.

End ClassifierMore.

(** ** More about the aggregator *)

Section AggregatorMore.

Variables Files Dates : Type.
Variable json2status :
  Files -> string -> Z -> result (list Dates * list bool).
Variable json2timeline :
  Files -> string -> Z -> string -> bool -> result (list Dates * list float).

Variable files : Files.
Variable nps : Z.

Abbreviation timer_info' := (timer_info Files Dates json2timeline files).
Abbreviation timer_body' := (timer_body Files Dates json2timeline files).
Abbreviation case_dict' := (case_dict Files Dates json2status json2timeline files).
Abbreviation case_body' := (case_body Files Dates json2status json2timeline files).
Abbreviation build_perf_tests' :=
  (build_perf_tests Files Dates json2status json2timeline files).
Abbreviation case_classifies' :=
  (case_classifies Files Dates json2status json2timeline files nps).
Abbreviation case_failure' :=
  (case_failure Files Dates json2status json2timeline files nps).

(** *** When the pieces return and when they raise *)

Lemma simple_perf_test_raises (wtimes : list float) (c : float) (e : exn) :
  simple_perf_test wtimes c = Raise e ->
  (List.length wtimes < 2)%nat /\ e = IndexError.
Proof.
  intros H.
  destruct (Nat.lt_ge_cases (List.length wtimes) 2) as [Hlt | Hge].
  - rewrite (simple_perf_test_short wtimes c Hlt) in H.
    injection H as <-. now split.
  - rewrite (simple_perf_test_two_samples wtimes c Hge) in H. discriminate H.
Qed.

Lemma getitem_last_cases {A : Type} (l : list A) (d : A) :
  (l = [] /\ getitem l (-1) = Raise IndexError)
  \/ (l <> [] /\ getitem l (-1) = Ok (last l d)).
Proof.
  destruct l as [| x l]; [left; now split | right].
  split; [discriminate |]. apply getitem_last. cbn. lia.
Qed.

Lemma timer_info_cases (case timer : string) :
  match timer_info' case nps timer with
  | Ok ti =>
      exists ds wtimes,
        json2timeline files case nps timer false = Ok (ds, wtimes)
        /\ (2 <= List.length wtimes)%nat
  | Raise e =>
      json2timeline files case nps timer false = Raise e
      \/ exists ds wtimes,
           json2timeline files case nps timer false = Ok (ds, wtimes)
           /\ (List.length wtimes < 2)%nat /\ e = IndexError
  end.
Proof.
  unfold timer_info.
  destruct (json2timeline files case nps timer false) as [[ds wtimes] | e];
    cbn [Py.bind snd]; [| now left].
  destruct (simple_perf_test wtimes 2) as [[[[st m] mu] sg] | e] eqn:Hr;
    cbn [Py.bind].
  - destruct (colorMap_status Files Dates json2status json2timeline files st
                (simple_perf_test_status _ _ _ _ _ _ Hr))
      as (color & -> & _). cbn [Py.bind].
    exists ds, wtimes. split; [reflexivity |].
    destruct (Nat.lt_ge_cases (List.length wtimes) 2) as [Hlt | Hge];
      [| exact Hge].
    rewrite (simple_perf_test_short wtimes 2 Hlt) in Hr. discriminate Hr.
  - destruct (simple_perf_test_raises _ _ _ Hr) as [Hlt ->].
    right. exists ds, wtimes. repeat split. exact Hlt.
Qed.

Lemma timer_info_returns (case timer : string) (ds : list Dates)
    (wtimes : list float) :
  json2timeline files case nps timer false = Ok (ds, wtimes) ->
  (2 <= List.length wtimes)%nat ->
  exists ti, timer_info' case nps timer = Ok ti.
Proof.
  intros Hseries Hlen. unfold timer_info. rewrite Hseries. cbn [Py.bind snd].
  rewrite (simple_perf_test_two_samples wtimes 2 Hlen). cbn [Py.bind].
  destruct (colorMap_status Files Dates json2status json2timeline files _
              (decision_status wtimes 2)) as (color & -> & _).
  cbn [Py.bind]. eexists. reflexivity.
Qed.

(** The loop over timers raises only what a timer's classification
    raises: the two dictionary subscripts never fail. *)
Lemma timer_loop_raises (case : string) (timers_ : list string) (e : exn) :
  forall (timersDict : dict TimerInfo) (g y r : Z),
  for_each (timer_body' case nps) timers_ (timersDict, color_counter g y r)
  = Raise e ->
  exists timer, In timer timers_ /\ timer_info' case nps timer = Raise e.
Proof.
  induction timers_ as [| timer timers_ IH]; intros td g y r H;
    [discriminate H |].
  cbn [for_each] in H. rewrite timer_body_timer_info in H.
  destruct (timer_info' case nps timer) as [ti | e'] eqn:Hti;
    cbn [Py.bind] in H.
  - assert (exists g' y' r',
               (n <- lookup (color_counter g y r) (perfTestColor ti) ;;
                Ok (setitem td timer ti,
                    setitem (color_counter g y r) (perfTestColor ti) (n + 1)%Z))
               = Ok (setitem td timer ti, color_counter g' y' r'))
      as (g' & y' & r' & Hstep).
    { destruct (timer_info_color Files Dates json2status json2timeline files nps
                  case timer ti Hti) as [<- | [<- | [<- | []]]];
        do 3 eexists; reflexivity. }
    rewrite Hstep in H. cbn [Py.bind] in H.
    destruct (IH _ _ _ _ H) as (t & Ht & Hraise).
    exists t. split; [now right | exact Hraise].
  - injection H as ->. exists timer. split; [now left | exact Hti].
Qed.

Lemma timer_infos_exist (case : string) (timers_ : list string) :
  Forall (fun timer => exists ti, timer_info' case nps timer = Ok ti) timers_ ->
  exists tis,
    Forall2 (fun timer ti => timer_info' case nps timer = Ok ti) timers_ tis.
Proof.
  induction 1 as [| timer timers_ [ti Hti] _ [tis Htis]].
  - exists []. constructor.
  - exists (ti :: tis). now constructor.
Qed.

Lemma case_dict_cases (case : string) (timers_ : list string) :
  match case_dict' case nps timers_ with
  | Ok info => case_classifies' timers_ case
  | Raise e => case_failure' timers_ case e
  end.
Proof.
  destruct (json2status files case nps) as [[dates status] | e] eqn:Hds.
  2:{ unfold case_dict. rewrite Hds. cbn [Py.bind]. now left. }
  destruct (getitem_last_cases status false) as [[-> Hlast] | [Hne Hlast]].
  { unfold case_dict. rewrite Hds. cbn [Py.bind snd]. rewrite Hlast.
    cbn [Py.bind]. right. left. exists dates. now split. }
  destruct (last status false) eqn:Hran.
  - destruct (for_each (timer_body' case nps) timers_
                (([] : dict TimerInfo), color_counter 0 0 0))
      as [st' | e] eqn:Hloop.
    + destruct (timer_loop_returns Files Dates json2timeline files nps case
                  timers_ _ _ Hloop) as [tis Htis].
      destruct (case_dict_ran Files Dates json2status json2timeline files nps
                  case (dates, status) timers_ tis
                  Hds Hlast Htis) as (td & -> & _).
      exists dates, status. split; [exact Hds |]. split; [exact Hne |].
      intros _. apply Forall_forall. intros timer Hin.
      destruct (Forall2_In_l _ _ _ timer Htis Hin) as (ti & _ & Hti).
      pose proof (timer_info_cases case timer) as Hcases.
      rewrite Hti in Hcases. exact Hcases.
    + assert (case_dict' case nps timers_ = Raise e) as ->.
      { unfold case_dict. rewrite Hds. cbn [Py.bind snd]. rewrite Hlast.
        cbn [Py.bind].
        change [("green", 0%Z); ("yellow", 0%Z); ("red", 0%Z)]
          with (color_counter 0 0 0).
        rewrite Hloop. reflexivity. }
      destruct (timer_loop_raises case timers_ e _ _ _ _ Hloop)
        as (timer & Hin & Hraise).
      right. right. exists dates, status.
      split; [exact Hds |]. split; [exact Hne |]. split; [exact Hran |].
      exists timer. split; [exact Hin |].
      pose proof (timer_info_cases case timer) as Hcases.
      rewrite Hraise in Hcases. exact Hcases.
  - rewrite (case_dict_run_failed Files Dates json2status json2timeline files
               nps case (dates, status) timers_
               Hds Hlast).
    exists dates, status. split; [exact Hds |]. split; [exact Hne |].
    intros Htrue. rewrite Hran in Htrue. discriminate Htrue.
Qed.

Lemma case_classifies_returns (case : string) (timers_ : list string) :
  case_classifies' timers_ case ->
  exists info, case_dict' case nps timers_ = Ok info.
Proof.
  intros (dates & status & Hds & Hne & Htimers).
  destruct (getitem_last_cases status false) as [[-> _] | [_ Hlast]];
    [contradiction |].
  destruct (last status false) eqn:Hran.
  - assert (Forall (fun timer => exists ti, timer_info' case nps timer = Ok ti)
              timers_) as Hall.
    { apply Forall_forall. intros timer Hin.
      pose proof (proj1 (Forall_forall _ _) (Htimers eq_refl) timer Hin)
        as (ds & wtimes & Hseries & Hlen).
      exact (timer_info_returns case timer ds wtimes Hseries Hlen). }
    destruct (timer_infos_exist case timers_ Hall) as [tis Htis].
    destruct (case_dict_ran Files Dates json2status json2timeline files nps
                  case (dates, status) timers_ tis
                Hds Hlast Htis) as (td & -> & _).
    eexists. reflexivity.
  - exists failed_case.
    exact (case_dict_run_failed Files Dates json2status json2timeline files
               nps case (dates, status) timers_
             Hds Hlast).
Qed.

(** *** The loop over cases, once more *)

Lemma case_loop_returns_iff (timers_ cases : list string) :
  forall acc : dict CaseInfo,
  (exists report, for_each (case_body' nps timers_) cases acc = Ok report)
  <-> Forall (fun c => exists info, case_dict' c nps timers_ = Ok info) cases.
Proof.
  induction cases as [| case cases IH]; intros acc.
  - split; [constructor | intros _; now exists acc].
  - cbn [for_each]. unfold case_body at 1.
    destruct (case_dict' case nps timers_) as [info | e] eqn:Hcase;
      cbn [Py.bind].
    + rewrite IH. split.
      * intros Hrest. constructor; [now exists info | exact Hrest].
      * intros Hall. now inversion Hall.
    + split.
      * intros [report H]. discriminate H.
      * intros Hall. inversion Hall as [| ? ? [info Hinfo] _].
        rewrite Hcase in Hinfo. discriminate Hinfo.
Qed.

Lemma case_loop_first_failure (timers_ cases : list string) (e : exn) :
  forall acc : dict CaseInfo,
  for_each (case_body' nps timers_) cases acc = Raise e ->
  exists before case after,
    cases = before ++ case :: after
    /\ Forall (fun c => exists info, case_dict' c nps timers_ = Ok info) before
    /\ case_dict' case nps timers_ = Raise e.
Proof.
  induction cases as [| case cases IH]; intros acc H; [discriminate H |].
  cbn [for_each] in H. unfold case_body at 1 in H.
  destruct (case_dict' case nps timers_) as [info | e'] eqn:Hcase;
    cbn [Py.bind] in H.
  - destruct (IH _ H) as (before & c & after & -> & Hbefore & Hc).
    exists (case :: before), c, after. split; [reflexivity |].
    split; [| exact Hc]. constructor; [now exists info | exact Hbefore].
  - injection H as ->. exists [], case, cases. repeat split; [constructor | exact Hcase].
Qed.

Lemma keys_setitem_In {V : Type} (d : dict V) (k k' : string) (v : V) :
  In k' (keys (setitem d k v)) <-> k' = k \/ In k' (keys d).
Proof.
  induction d as [| [k0 v0] d IH]; cbn.
  - intuition congruence.
  - destruct (String.eqb_spec k0 k) as [-> | Hne]; cbn.
    + intuition congruence.
    + rewrite IH. intuition congruence.
Qed.

Lemma keys_setitem_NoDup {V : Type} (d : dict V) (k : string) (v : V) :
  NoDup (keys d) -> NoDup (keys (setitem d k v)).
Proof.
  induction d as [| [k0 v0] d IH]; cbn; intros Hnd.
  - constructor; [intros [] | constructor].
  - inversion Hnd as [| ? ? Hnotin Hrest]; subst.
    destruct (String.eqb_spec k0 k) as [-> | Hne]; cbn.
    + now constructor.
    + constructor; [| now apply IH].
      intros Hin. apply keys_setitem_In in Hin as [-> | Hin]; contradiction.
Qed.

Lemma case_loop_keys (timers_ cases : list string) :
  forall acc report : dict CaseInfo,
  for_each (case_body' nps timers_) cases acc = Ok report ->
  (NoDup (keys acc) -> NoDup (keys report))
  /\ (forall k, In k (keys report)
                <-> In k (keys acc)
                    \/ exists c, In c cases /\ k = case_name c nps).
Proof.
  induction cases as [| case cases IH]; intros acc report H.
  - cbn in H. injection H as <-. split; [tauto |].
    intros k. split; [tauto | intros [Hk | (c & [] & _)]; exact Hk].
  - cbn [for_each] in H. unfold case_body at 1 in H.
    destruct (case_dict' case nps timers_) as [info | e'] eqn:Hcase;
      cbn [Py.bind] in H; [| discriminate H].
    destruct (IH _ _ H) as [Hnd Hkeys]. split.
    + intros Hacc. now apply Hnd, keys_setitem_NoDup.
    + intros k. rewrite Hkeys, keys_setitem_In. split.
      * intros [[-> | Hk] | (c & Hc & ->)].
        -- right. exists case. split; [now left | reflexivity].
        -- now left.
        -- right. exists c. split; [now right | reflexivity].
      * intros [Hk | (c & [<- | Hc] & ->)].
        -- left. now right.
        -- left. now left.
        -- right. exists c. now split.
Qed.

(** *** Further properties of [build_perf_tests] *)

(** X3.  [build_perf_tests] returns a report exactly when, for every
    configured case, [json2status] returns at least one run outcome and,
    if the latest run succeeded, [json2timeline] returns at least 2
    samples for every configured timer. *)
Theorem build_perf_tests_returns_iff (cases timers_ : list string) :
  (exists perfTests_,
      build_perf_tests Files Dates json2status json2timeline files cases nps
        timers_ = Ok perfTests_)
  <-> Forall (case_classifies Files Dates json2status json2timeline files nps
                timers_) cases.
Proof.
  unfold build_perf_tests. rewrite case_loop_returns_iff.
  split; intros Hall; apply Forall_forall; intros c Hc;
    pose proof (proj1 (Forall_forall _ _) Hall c Hc) as H.
  - destruct H as [info Hinfo].
    pose proof (case_dict_cases c timers_) as Hcases.
    now rewrite Hinfo in Hcases.
  - now apply case_classifies_returns.
Qed.

(** X4.  There is no error isolation in [build_perf_tests]: when it
    raises, no report is produced, and the exception is the one of the
    first configured case that cannot be classified: one that a
    collaborator raised, or [IndexError] for a case without run outcomes
    or for a timer, of a case that ran, with fewer than 2 samples. *)
Theorem build_perf_tests_raises (cases timers_ : list string) (e : exn) :
  build_perf_tests Files Dates json2status json2timeline files cases nps
    timers_ = Raise e ->
  exists before case after,
    cases = before ++ case :: after
    /\ Forall (case_classifies Files Dates json2status json2timeline files
                 nps timers_) before
    /\ case_failure Files Dates json2status json2timeline files nps timers_
         case e.
Proof.
  intros H.
  destruct (case_loop_first_failure timers_ cases e [] H)
    as (before & case & after & Heq & Hbefore & Hcase).
  exists before, case, after. split; [exact Heq |]. split.
  - apply Forall_forall. intros c Hc.
    destruct (proj1 (Forall_forall _ _) Hbefore c Hc) as [info Hinfo].
    pose proof (case_dict_cases c timers_) as Hcases.
    now rewrite Hinfo in Hcases.
  - pose proof (case_dict_cases case timers_) as Hcases.
    now rewrite Hcase in Hcases.
Qed.

(** X5.  The keys of every report that [build_perf_tests] returns are
    pairwise distinct, and they are exactly the names
    [case + '_np' + str(nps)] of the configured cases, also when a case is
    configured more than once. *)
Theorem report_keys (cases timers_ : list string)
    (perfTests_ : dict CaseInfo) :
  build_perf_tests Files Dates json2status json2timeline files cases nps
    timers_ = Ok perfTests_ ->
  NoDup (keys perfTests_)
  /\ (forall k, In k (keys perfTests_)
                <-> exists c, In c cases /\ k = case_name c nps)
  /\ (List.length perfTests_ <= List.length cases)%nat.
Proof.
  intros H.
  destruct (case_loop_keys timers_ cases [] perfTests_ H) as [Hnd Hkeys].
  assert (NoDup (keys perfTests_)) as Hnodup by (apply Hnd; constructor).
  assert (forall k, In k (keys perfTests_)
                    <-> exists c, In c cases /\ k = case_name c nps) as Hiff.
  { intros k. rewrite Hkeys. cbn. tauto. }
  split; [exact Hnodup |]. split; [exact Hiff |].
  replace (List.length perfTests_) with (List.length (keys perfTests_))
    by apply length_map.
  rewrite <- (length_map (fun c => case_name c nps) cases).
  apply NoDup_incl_length; [exact Hnodup |].
  intros k Hk. apply Hiff in Hk as (c & Hc & ->).
  exact (in_map (fun c => case_name c nps) cases c Hc).
Qed.

Lemma Forall2_combine_In {A B : Type} (R : A -> B -> Prop) (l : list A)
    (l' : list B) (x : A) (y : B) :
  Forall2 R l l' -> In (x, y) (combine l l') -> R x y.
Proof.
  induction 1 as [| a b l l' Hab Hrest IH]; cbn; [intros [] |].
  intros [Heq | Hin]; [now injection Heq as <- <- | now apply IH].
Qed.

(** What [case_dict] returns for a case that ran, from the timers
    classified in the loop. *)
Lemma case_dict_ran_entries (case : string) (timers_ : list string)
    (info : CaseInfo) :
  case_dict' case nps timers_ = Ok info ->
  info = failed_case
  \/ exists timersDict tis,
       Forall2 (fun timer ti => timer_info' case nps timer = Ok ti) timers_ tis
       /\ info
          = mkCaseInfo "Passed" "green" (Some timersDict)
              (str (occurrences "green" (map perfTestColor tis)) ++ "/"
               ++ str (occurrences "yellow" (map perfTestColor tis)) ++ "/"
               ++ str (occurrences "red" (map perfTestColor tis)))%string
              (if negb (occurrences "red" (map perfTestColor tis) =? 0)%Z
               then "red"
               else if negb (occurrences "yellow" (map perfTestColor tis)
                             =? 0)%Z
                    then "yellow"
                    else "green")
       /\ (forall t ti, In (t, ti) timersDict ->
                        In (t, ti) (combine timers_ tis)).
Proof.
  intros H.
  destruct (json2status files case nps) as [ds | e] eqn:Hds;
    [| unfold case_dict in H; rewrite Hds in H; discriminate H].
  destruct (getitem (snd ds) (-1)) as [[|] | e] eqn:Hlast;
    [| | unfold case_dict in H; rewrite Hds in H; cbn [Py.bind] in H;
         rewrite Hlast in H; discriminate H].
  - right.
    assert (exists tis,
               Forall2 (fun timer ti => timer_info' case nps timer = Ok ti)
                 timers_ tis) as [tis Htis].
    { unfold case_dict in H. rewrite Hds in H. cbn [Py.bind] in H.
      rewrite Hlast in H. cbn [Py.bind] in H.
      destruct (for_each (timer_body' case nps) timers_
                  (([] : dict TimerInfo),
                   ([("green", 0%Z); ("yellow", 0%Z); ("red", 0%Z)] : dict Z)))
        as [st' |] eqn:Hloop; [| discriminate H].
      exact (timer_loop_returns Files Dates json2timeline files nps case
               timers_ _ _ Hloop). }
    destruct (case_dict_ran Files Dates json2status json2timeline files nps
                case ds timers_ tis Hds Hlast Htis)
      as (td & Heq & Hfrom & _).
    rewrite Heq in H. injection H as <-.
    exists td, tis. repeat split; assumption.
  - left.
    rewrite (case_dict_run_failed Files Dates json2status json2timeline files
               nps case ds timers_ Hds Hlast) in H.
    now injection H as <-.
Qed.

(** X6.  In every report that [build_perf_tests] returns, an entry is
    either the one of a failed run ('Failed', red, no timers), or it is
    marked 'Passed' and green, its aggregate colour and the colours of its
    timers are among 'green', 'yellow' and 'red' (the ids that the style
    sheet of the report defines), and its timers are configured ones. *)
Theorem report_labels (cases timers_ : list string)
    (perfTests_ : dict CaseInfo) (name : string) (info : CaseInfo) :
  build_perf_tests Files Dates json2status json2timeline files cases nps
    timers_ = Ok perfTests_ ->
  In (name, info) perfTests_ ->
  info = failed_case
  \/ (runTest info = "Passed" /\ runTestColor info = "green"
      /\ In (perfTestsColor info) ["green"; "yellow"; "red"]
      /\ exists timersDict,
           timers info = Some timersDict
           /\ forall timer timerInfo,
                In (timer, timerInfo) timersDict ->
                In timer timers_
                /\ In (perfTestColor timerInfo) ["green"; "yellow"; "red"]).
Proof.
  intros Hbuild Hin.
  destruct (case_loop_entries Files Dates json2status json2timeline files nps
              timers_ cases [] perfTests_ Hbuild) as (Hfrom & _ & _).
  destruct (Hfrom name info Hin) as [[] | (c & _ & Hc)].
  destruct (case_dict_ran_entries c timers_ info Hc)
    as [-> | (td & tis & Htis & -> & Hsub)]; [now left | right].
  cbn [runTest runTestColor perfTestsColor timers].
  split; [reflexivity |]. split; [reflexivity |]. split.
  - destruct (negb (occurrences "red" (map perfTestColor tis) =? 0)%Z);
      [cbn; tauto |].
    destruct (negb (occurrences "yellow" (map perfTestColor tis) =? 0)%Z);
      cbn; tauto.
  - exists td. split; [reflexivity |]. intros t ti Hti.
    pose proof (Hsub t ti Hti) as Hcomb. split.
    + exact (in_combine_l _ _ _ _ Hcomb).
    + apply (timer_info_color Files Dates json2status json2timeline files nps
               c t ti).
      exact (Forall2_combine_In _ _ _ _ _ Htis Hcomb).
Qed.

(** For pairwise distinct timers that are not yet in the dictionary, the
    loop over timers appends one entry per timer, in the order of the
    timers. *)
Lemma timer_loop_order (case : string) (timers_ : list string)
    (tis : list TimerInfo) :
  Forall2 (fun timer ti => timer_info' case nps timer = Ok ti) timers_ tis ->
  NoDup timers_ ->
  forall (timersDict timersDict' : dict TimerInfo) (g y r : Z)
         (colorCounter' : dict Z),
  (forall t, In t timers_ -> ~ In t (keys timersDict)) ->
  for_each (timer_body' case nps) timers_ (timersDict, color_counter g y r)
  = Ok (timersDict', colorCounter') ->
  timersDict' = timersDict ++ combine timers_ tis.
Proof.
  induction 1 as [| timer ti timers_ tis Hti Hrest IH];
    intros Hnd td td' g y r cc' Hfresh H.
  - cbn in H. injection H as <- _. cbn. now rewrite app_nil_r.
  - inversion Hnd as [| ? ? Hnotin Hnd']; subst.
    cbn [for_each] in H. rewrite timer_body_timer_info, Hti in H.
    cbn [Py.bind] in H.
    assert (exists g' y' r',
               (n <- lookup (color_counter g y r) (perfTestColor ti) ;;
                Ok (setitem td timer ti,
                    setitem (color_counter g y r) (perfTestColor ti) (n + 1)%Z))
               = Ok (setitem td timer ti, color_counter g' y' r'))
      as (g' & y' & r' & Hstep).
    { destruct (timer_info_color Files Dates json2status json2timeline files
                  nps case timer ti Hti) as [<- | [<- | [<- | []]]];
        do 3 eexists; reflexivity. }
    rewrite Hstep in H. cbn [Py.bind] in H.
    rewrite setitem_fresh in H by (apply Hfresh; now left).
    assert (forall t, In t timers_ -> ~ In t (keys (td ++ [(timer, ti)])))
      as Hfresh'.
    { intros t Ht. unfold keys. rewrite map_app, in_app_iff. cbn.
      intros [Hin | [<- | []]]; [| contradiction].
      apply (Hfresh t); [now right | exact Hin]. }
    rewrite (IH Hnd' _ _ _ _ _ _ Hfresh' H).
    cbn. now rewrite <- app_assoc.
Qed.

(** X7.  For a case that ran and pairwise distinct timers that all
    classify, the entry's timers are exactly the configured timers in the
    configured order, each with the entry computed for it. *)
Theorem timers_keep_configuration_order (case : string) (dates : list Dates)
    (status : list bool) (timers_ : list string) (tis : list TimerInfo) :
  json2status files case nps = Ok (dates, status ++ [true]) ->
  NoDup timers_ ->
  Forall2 (fun timer ti =>
             timer_info Files Dates json2timeline files case nps timer = Ok ti)
    timers_ tis ->
  exists info,
    case_dict Files Dates json2status json2timeline files case nps timers_
    = Ok info
    /\ timers info = Some (combine timers_ tis).
Proof.
  intros Hds Hnd Htis.
  destruct (timer_loop Files Dates json2status json2timeline files nps case
              timers_ tis Htis [] 0%Z 0%Z 0%Z) as (td & Hloop & _).
  pose proof (timer_loop_order case timers_ tis Htis Hnd [] td 0%Z 0%Z 0%Z _
                (fun _ _ H => H) Hloop) as Htd.
  cbn [app] in Htd. subst td.
  unfold case_dict. rewrite Hds. cbn [Py.bind snd].
  rewrite getitem_last_app. cbn [Py.bind].
  change [("green", 0%Z); ("yellow", 0%Z); ("red", 0%Z)]
    with (color_counter 0 0 0).
  rewrite Hloop. cbn [Py.bind].
  match goal with
  | |- context [color_counter ?G ?Y ?R] =>
      destruct (lookup_counter G Y R) as (-> & -> & ->)
  end.
  cbn [Py.bind].
  destruct (negb _); [eexists; split; reflexivity |].
  destruct (negb _); eexists; split; reflexivity.
Qed.

End AggregatorMore.

(** ** More about the renderer *)

Section RendererMore.

Variable format_g : float -> string.
Variable date : string.

(** The second loop over cases, on any dictionary of entries: it raises
    [KeyError] at an item that is not marked as failed and has no timers,
    and otherwise returns the flag of the scan and the detail sections in
    order. *)
Lemma case_tab_loop_any (perfTests_ : dict CaseInfo) :
  forall (b : bool) (tabs : string),
  for_each (case_tab_body format_g) perfTests_ (b, tabs)
  = if forallb renderable perfTests_
    then Ok (b || existsb red_case perfTests_,
             (tabs ++ join (map (case_section format_g) perfTests_))%string)
    else Raise KeyError.
Proof.
  induction perfTests_ as [| [n i] rest IH]; intros b tabs.
  - cbn. now rewrite orb_false_r, append_nil_r.
  - cbn [for_each case_tab_body forallb existsb map join fold_right].
    unfold renderable at 1, red_case at 1, case_section at 1. cbn [fst snd].
    destruct (String.eqb (runTest i) "Failed"); cbn [orb andb Py.bind].
    + rewrite IH. destruct (forallb renderable rest); [| reflexivity].
      now rewrite orb_true_r, append_assoc.
    + destruct (timers i) as [td |]; cbn [Py.bind andb]; [| reflexivity].
      rewrite timer_tab_loop. cbv beta iota zeta. unfold items.
      cbn [Py.bind].
      rewrite IH. destruct (forallb renderable rest); [| reflexivity].
      now rewrite orb_assoc, !append_assoc.
Qed.

Lemma forallb_renderable (perfTests_ : dict CaseInfo) :
  forallb renderable perfTests_ = true
  <-> forall n i, In (n, i) perfTests_ ->
                  runTest i = "Failed" \/ timers i <> None.
Proof.
  rewrite forallb_forall. split.
  - intros H n i Hin. specialize (H (n, i) Hin).
    unfold renderable in H. cbn [snd] in H.
    apply orb_true_iff in H as [H | H].
    + left. now apply String.eqb_eq.
    + right. destruct (timers i); [discriminate | discriminate H].
  - intros H [n i] Hin. unfold renderable. cbn [snd].
    destruct (H n i Hin) as [-> | Hsome]; [reflexivity |].
    destruct (timers i); [apply orb_true_r | contradiction].
Qed.

(** X8.  On a dictionary of report-shaped entries (every entry carries the
    keys 'runTest', 'runTestColor', 'perfTests' and 'perfTestsColor', and
    every timer entry its three floats and its colour; only the key
    'timers' may be absent), [build_perf_tests_html] raises exactly when
    some item is not marked 'Failed' and lacks the key 'timers'; the
    exception is then [KeyError]. *)
Theorem renderer_raises_iff (perfTests_ : dict CaseInfo) (e : exn) :
  build_perf_tests_html format_g date perfTests_ = Raise e
  <-> e = KeyError
      /\ exists name info,
           In (name, info) perfTests_
           /\ runTest info <> "Failed" /\ timers info = None.
Proof.
  unfold build_perf_tests_html, items. rewrite case_tab_loop_any.
  destruct (forallb renderable perfTests_) eqn:Hall; cbn [Py.bind].
  - split; [intros H; destruct (existsb red_case perfTests_); discriminate H |].
    intros (_ & n & i & Hin & Hrun & Htim). exfalso.
    destruct (proj1 (forallb_renderable perfTests_) Hall n i Hin)
      as [Hfailed | Hsome]; [contradiction | now rewrite Htim in Hsome].
  - split.
    + intros H. injection H as <-. split; [reflexivity |].
      assert (~ forall x, In x perfTests_ -> renderable x = true) as Hnot.
      { intros Hforall. apply forallb_forall in Hforall. congruence. }
      induction perfTests_ as [| [n i] rest IH]; [discriminate Hall |].
      destruct (renderable (n, i)) eqn:Hni.
      * cbn [forallb] in Hall. rewrite Hni in Hall. cbn [andb] in Hall.
        destruct IH as (n' & i' & Hin & Hrest); [exact Hall | |].
        -- intros Hforall. apply forallb_forall in Hforall. congruence.
        -- exists n', i'. split; [now right | exact Hrest].
      * exists n, i. split; [now left |].
        unfold renderable in Hni. cbn [snd] in Hni.
        apply orb_false_iff in Hni as [Hrun Htim]. split.
        -- now apply String.eqb_neq.
        -- destruct (timers i); [discriminate Htim | reflexivity].
    + intros [-> _]. reflexivity.
Qed.

(** X9.  On a dictionary of report-shaped entries (as in X8: only the key
    'timers' may be absent) whose items are marked 'Failed' or have their
    timers, [build_perf_tests_html] returns.  The subject carries the
    'failed' tag exactly when some item is marked 'Failed' or some timer of
    another item is red; the aggregate colours are not consulted.  The body
    is the style sheet, the title, the status table with one row per item,
    one detail section per item in the same order (the notice of a failed
    test, or the timer table with one row per timer), and the links. *)
Theorem renderer_output (perfTests_ : dict CaseInfo) :
  (forall name info, In (name, info) perfTests_ ->
                     runTest info = "Failed" \/ timers info <> None) ->
  build_perf_tests_html format_g date perfTests_
  = Ok ((if existsb red_case perfTests_
         then "[ALIPerfTestsFailed] Albany Land Ice Performance Tests"
         else "[ALIPerfTestsPassed] Albany Land Ice Performance Tests"),
        (style ++ title
         ++ (statusTab_open
             ++ join (map (fun ni => status_row (fst ni) (snd ni)) perfTests_)
             ++ statusTab_close)
         ++ join (map (case_section format_g) perfTests_)
         ++ links date)%string).
Proof.
  intros Hall. apply forallb_renderable in Hall.
  unfold build_perf_tests_html, items.
  rewrite case_tab_loop_any, Hall. cbn [Py.bind orb].
  rewrite status_table_rows.
  destruct (existsb red_case perfTests_); reflexivity.
Qed.

End RendererMore.

Lemma renderer_output_witness :
  build_perf_tests_html ex_format_g ex_date ex_report
  = Ok ((if existsb red_case ex_report
         then "[ALIPerfTestsFailed] Albany Land Ice Performance Tests"
         else "[ALIPerfTestsPassed] Albany Land Ice Performance Tests"),
        (style ++ title
         ++ (statusTab_open
             ++ join (map (fun ni => status_row (fst ni) (snd ni)) ex_report)
             ++ statusTab_close)
         ++ join (map (case_section ex_format_g) ex_report)
         ++ links ex_date)%string).
Proof.
  apply (renderer_output ex_format_g ex_date ex_report).
  intros name info [H | [H | []]]; injection H as <- <-;
    [left; reflexivity | right; discriminate].
Defined.

(** ** The entry point *)

Lemma prefix_spec (a b : string) :
  String.prefix a b = true <-> exists rest, b = (a ++ rest)%string.
Proof.
  revert b. induction a as [| c a IH]; intros b.
  - split; [intros _; now exists b | intros _; now destruct b].
  - destruct b as [| c' b]; cbn.
    + split; [discriminate | intros [rest H]; discriminate H].
    + destruct (Ascii.ascii_dec c c') as [-> | Hne].
      * rewrite IH. split; intros [rest H]; exists rest;
          [now rewrite H | now injection H].
      * split; [discriminate |]. intros [rest H]. injection H as <- _.
        contradiction.
Qed.

(** [contains] decides whether the needle occurs in the hay. *)
Lemma contains_spec (needle hay : string) :
  contains needle hay = true <-> occurs_in needle hay.
Proof.
  unfold occurs_in. split.
  - induction hay as [| c hay IH]; cbn [contains]; intros H;
      apply orb_true_iff in H as [H | H].
    + apply prefix_spec in H as [rest ->]. now exists EmptyString, rest.
    + discriminate H.
    + apply prefix_spec in H as [rest ->]. now exists EmptyString, rest.
    + destruct (IH H) as (before & after & ->).
      now exists (String c before), after.
  - intros (before & after & ->).
    induction before as [| c before IH].
    + cbn [append]. destruct (needle ++ after)%string eqn:Heq;
        cbn [contains]; apply orb_true_iff; left; apply prefix_spec;
        exists after; now rewrite <- Heq.
    + cbn [append contains]. rewrite IH. apply orb_true_r.
Qed.

Lemma filter_nil_iff {A : Type} (f : A -> bool) (l : list A) :
  filter f l = [] <-> forall x, In x l -> f x = false.
Proof.
  induction l as [| x l IH]; cbn.
  - split; [intros _ y [] | reflexivity].
  - destruct (f x) eqn:Hx.
    + split; [discriminate |]. intros H. specialize (H x (or_introl eq_refl)).
      congruence.
    + rewrite IH. split.
      * intros H y [<- | Hy]; [exact Hx | now apply H].
      * intros H y Hy. apply H. now right.
Qed.

Section MainFacts.

Variable Dates : Type.
Variable json2status :
  list string -> string -> Z -> result (list Dates * list bool).
Variable json2timeline :
  list string -> string -> Z -> string -> bool
  -> result (list Dates * list float).
Variable html2email : string -> string -> string -> list string -> result unit.
Variable format_g : float -> string.
Variable glob : string -> list string.
Variable strftime : string -> string.

(** X10.  When none of the paths that [glob.glob] returns for the pattern
    contains today's date (the test [date in filename] is on the whole
    path, the directory part included), the run prints one line, calls
    [html2email] once, with the 'failed' subject that the renderer uses,
    the fixed error body and two recipients, and exits; the archives are
    not read, whatever the collaborators are. *)
Theorem main_without_todays_file (argv : list string) :
  (forall filename, In filename (run_files glob argv) ->
                    ~ occurs_in (strftime "%Y%m%d") filename) ->
  main Dates json2status json2timeline html2email format_g glob strftime argv
  = ([Print "Today's json doesn't exist, sending error email...";
      Html2email ("[ALIPerfTestsFailed] " ++ subject_base) error_body
        "jwatkin@sandia.gov" ["jwatkin@sandia.gov"; "ikalash@sandia.gov"]],
     _ <- html2email ("[ALIPerfTestsFailed] " ++ subject_base) error_body
            "jwatkin@sandia.gov" ["jwatkin@sandia.gov"; "ikalash@sandia.gov"] ;;
     Ok tt).
Proof.
  intros Hnone. unfold main. fold (run_files glob argv).
  assert (filter (fun filename => contains (strftime "%Y%m%d") filename)
            (run_files glob argv) = []) as ->.
  { apply filter_nil_iff. intros f Hf.
    destruct (contains (strftime "%Y%m%d") f) eqn:Hc; [| reflexivity].
    apply contains_spec in Hc. now apply Hnone in Hc. }
  reflexivity.
Qed.

(** X11.  When some matching file has today's date in its name, the run
    aggregates over all the matching files with the fixed cases, process
    count and timers.  If the aggregation returns, the rendering returns
    too, and the run prints three lines and then calls [html2email] once,
    with the rendered subject and body and the four recipients.  If the
    aggregation raises, the run ends with that exception after one printed
    line, and [html2email] is not called. *)
Theorem main_with_todays_file (argv : list string) (filename : string) :
  In filename (run_files glob argv) ->
  occurs_in (strftime "%Y%m%d") filename ->
  match build_perf_tests (list string) Dates json2status json2timeline
          (run_files glob argv) main_cases main_nps main_timers with
  | Ok perfTests_ =>
      exists subject body,
        build_perf_tests_html format_g (strftime "%m_%d_%Y") perfTests_
        = Ok (subject, body)
        /\ main Dates json2status json2timeline html2email format_g glob
             strftime argv
           = ([Print "Running performance analysis...";
               Print "Building HTML...";
               Print "Sending email...";
               Html2email subject body sender recipients],
              html2email subject body sender recipients)
  | Raise e =>
      main Dates json2status json2timeline html2email format_g glob strftime
        argv
      = ([Print "Running performance analysis..."], Raise e)
  end.
Proof.
  intros Hin Hocc. unfold main. fold (run_files glob argv).
  destruct (filter (fun f => contains (strftime "%Y%m%d") f) (run_files glob argv))
    as [| f fs] eqn:Hfilter.
  { exfalso. apply contains_spec in Hocc.
    pose proof (proj1 (filter_nil_iff _ _) Hfilter filename Hin) as Hf.
    cbv beta in Hf. congruence. }
  destruct (build_perf_tests (list string) Dates json2status json2timeline
              (run_files glob argv) main_cases main_nps main_timers)
    as [perfTests_ | e] eqn:Hbuild; [| reflexivity].
  destruct (render_built_report (list string) Dates json2status json2timeline
              (run_files glob argv) main_nps format_g (strftime "%m_%d_%Y")
              main_cases main_timers perfTests_ Hbuild) as [tabs Hrender].
  rewrite Hrender. do 2 eexists. split; reflexivity.
Qed.

End MainFacts.

(** ** Edge cases of the pipeline *)

Section EdgeCases.

Variables Files Dates : Type.
Variables json2status json2status' :
  Files -> string -> Z -> result (list Dates * list bool).
Variable json2timeline :
  Files -> string -> Z -> string -> bool -> result (list Dates * list float).
Variable format_g : float -> string.
Variable date : string.

(** X12.  With no configured case, the aggregator returns the empty report
    whatever the archives hold, and the renderer turns the empty report
    into the 'passed' subject and a body whose status table has no row and
    which has no detail section. *)
Theorem empty_configuration (files : Files) (nps : Z)
    (timers_ : list string) :
  build_perf_tests Files Dates json2status json2timeline files [] nps timers_
  = Ok []
  /\ build_perf_tests_html format_g date []
     = Ok ("[ALIPerfTestsPassed] Albany Land Ice Performance Tests",
           (style ++ title ++ (statusTab_open ++ statusTab_close)
            ++ links date)%string).
Proof. split; reflexivity. Qed.

(** X13.  Only the latest run outcome of a case counts: two archives
    that agree on the latest outcome of a case (and on its timers) give
    the same entry for it, whatever the earlier outcomes and the dates
    are. *)
Theorem only_latest_outcome_counts (files : Files) (nps : Z)
    (timers_ : list string) (case : string) (dates dates' : list Dates)
    (status status' : list bool) (latest : bool) :
  json2status files case nps = Ok (dates, status ++ [latest]) ->
  json2status' files case nps = Ok (dates', status' ++ [latest]) ->
  case_dict Files Dates json2status json2timeline files case nps timers_
  = case_dict Files Dates json2status' json2timeline files case nps timers_.
Proof.
  intros H H'. unfold case_dict. rewrite H, H'. cbn [Py.bind snd].
  now rewrite !getitem_last_app.
Qed.

End EdgeCases.

(** ** The further properties on the example archives *)

Lemma build_perf_tests_raises_witness :
  exists before case after,
    ["broken"; "ok"; "later"] = before ++ case :: after
    /\ Forall (case_classifies unit string ex_json2status
                 ex_short_json2timeline tt 384 ["steady"; "short"]) before
    /\ case_failure unit string ex_json2status ex_short_json2timeline tt 384
         ["steady"; "short"] case IndexError.
Proof.
  apply (build_perf_tests_raises unit string ex_json2status
           ex_short_json2timeline tt 384 ["broken"; "ok"; "later"]
           ["steady"; "short"] IndexError).
  vm_compute. reflexivity.
Defined.

Lemma report_keys_witness :
  NoDup (keys ex_report)
  /\ (forall k, In k (keys ex_report)
                <-> exists c, In c ["broken"; "ok"] /\ k = case_name c 384)
  /\ (List.length ex_report <= List.length ["broken"; "ok"])%nat.
Proof.
  apply (report_keys unit string ex_json2status ex_json2timeline tt 384
           ["broken"; "ok"] ["steady"; "spike"] ex_report).
  vm_compute. reflexivity.
Defined.

Lemma report_labels_witness :
  let info :=
    mkCaseInfo "Passed" "green"
      (Some [("steady", mkTimerInfo 12 10 2 "green");
             ("spike", mkTimerInfo 15 11 2 "yellow")])
      "1/1/0" "yellow" in
  info = failed_case
  \/ (runTest info = "Passed" /\ runTestColor info = "green"
      /\ In (perfTestsColor info) ["green"; "yellow"; "red"]
      /\ exists timersDict,
           timers info = Some timersDict
           /\ forall timer timerInfo,
                In (timer, timerInfo) timersDict ->
                In timer ["steady"; "spike"]
                /\ In (perfTestColor timerInfo) ["green"; "yellow"; "red"]).
Proof.
  cbv zeta.
  apply (report_labels unit string ex_json2status ex_json2timeline tt 384
           ["broken"; "ok"] ["steady"; "spike"] ex_report "ok_np384").
  - vm_compute. reflexivity.
  - simpl. right. left. reflexivity.
Defined.

Lemma timers_keep_configuration_order_witness :
  exists info,
    case_dict unit string ex_json2status ex_json2timeline tt "ok" 384
      ["steady"; "spike"] = Ok info
    /\ timers info
       = Some (combine ["steady"; "spike"]
                 [mkTimerInfo 12 10 2 "green"; mkTimerInfo 15 11 2 "yellow"]).
Proof.
  apply (timers_keep_configuration_order unit string ex_json2status
           ex_json2timeline tt 384 "ok" ["20200101"; "20200102"] [true]
           ["steady"; "spike"]).
  - reflexivity.
  - repeat constructor; simpl; intuition discriminate.
  - repeat constructor; vm_compute; reflexivity.
Defined.

Lemma only_latest_outcome_counts_witness :
  case_dict unit string ex_json2status ex_json2timeline tt "ok" 384 ["spike"]
  = case_dict unit string
      (fun _ _ _ => Ok (["20191231"], [false; false; true]))
      ex_json2timeline tt "ok" 384 ["spike"].
Proof.
  apply (only_latest_outcome_counts unit string ex_json2status
           (fun _ _ _ => Ok (["20191231"], [false; false; true]))
           ex_json2timeline tt 384 ["spike"] "ok"
           ["20200101"; "20200102"] ["20191231"] [true] [false; false] true);
    reflexivity.
Defined.

Lemma main_without_todays_file_witness :
  ex_main "06" ["email_report.py"; "data"]
  = ([Print "Today's json doesn't exist, sending error email...";
      Html2email ("[ALIPerfTestsFailed] " ++ subject_base) error_body
        "jwatkin@sandia.gov" ["jwatkin@sandia.gov"; "ikalash@sandia.gov"]],
     _ <- ex_html2email ("[ALIPerfTestsFailed] " ++ subject_base) error_body
            "jwatkin@sandia.gov" ["jwatkin@sandia.gov"; "ikalash@sandia.gov"] ;;
     Ok tt).
Proof.
  apply (main_without_todays_file string
           (fun files case nps => ex_json2status tt case nps)
           (fun files case nps timer hours =>
              ex_json2timeline tt case nps timer hours)
           ex_html2email ex_format_g ex_glob (ex_strftime_on "06")
           ["email_report.py"; "data"]).
  intros filename Hin Hocc. apply contains_spec in Hocc.
  vm_compute in Hin.
  destruct Hin as [<- | [<- | []]]; vm_compute in Hocc; discriminate Hocc.
Defined.

Lemma main_with_todays_file_witness :
  match build_perf_tests (list string) string
          (fun files case nps => ex_json2status tt case nps)
          (fun files case nps timer hours =>
             ex_json2timeline tt case nps timer hours)
          (run_files ex_glob ["email_report.py"; "data"])
          main_cases main_nps main_timers with
  | Ok perfTests_ =>
      exists subject body,
        build_perf_tests_html ex_format_g (ex_strftime_on "05" "%m_%d_%Y")
          perfTests_ = Ok (subject, body)
        /\ ex_main "05" ["email_report.py"; "data"]
           = ([Print "Running performance analysis...";
               Print "Building HTML...";
               Print "Sending email...";
               Html2email subject body sender recipients],
              ex_html2email subject body sender recipients)
  | Raise e =>
      ex_main "05" ["email_report.py"; "data"]
      = ([Print "Running performance analysis..."], Raise e)
  end.
Proof.
  apply (main_with_todays_file string
           (fun files case nps => ex_json2status tt case nps)
           (fun files case nps timer hours =>
              ex_json2timeline tt case nps timer hours)
           ex_html2email ex_format_g ex_glob (ex_strftime_on "05")
           ["email_report.py"; "data"] "data/ctest-20200105.json").
  - vm_compute. right. left. reflexivity.
  - exists "data/ctest-", ".json". reflexivity.
Defined.

Lemma build_perf_tests_returns_iff_witness :
  exists perfTests_,
    build_perf_tests unit string ex_json2status ex_json2timeline tt
      ["broken"; "ok"] 384 ["steady"; "spike"] = Ok perfTests_.
Proof.
  apply (proj2 (build_perf_tests_returns_iff unit string ex_json2status
                  ex_json2timeline tt 384 ["broken"; "ok"]
                  ["steady"; "spike"])).
  repeat constructor.
  - exists ["20200101"; "20200102"], [true; false].
    split; [reflexivity |]. split; [discriminate |].
    simpl. discriminate.
  - exists ["20200101"; "20200102"], [true; true].
    split; [reflexivity |]. split; [discriminate |].
    intros _. repeat constructor; do 2 eexists;
      (split; [reflexivity | simpl; lia]).
Defined.

Lemma renderer_raises_iff_witness :
  build_perf_tests_html ex_format_g ex_date
    [("ok_np384", mkCaseInfo "Passed" "green" None "0/0/0" "green")]
  = Raise KeyError.
Proof.
  apply (proj2 (renderer_raises_iff ex_format_g ex_date
                  [("ok_np384", mkCaseInfo "Passed" "green" None "0/0/0"
                                  "green")] KeyError)).
  split; [reflexivity |].
  exists "ok_np384", (mkCaseInfo "Passed" "green" None "0/0/0" "green").
  split; [now left |]. split; [discriminate | reflexivity].
Defined.

(** ** Repeated cases, and reports that satisfy the invariant *)

Lemma keys_setitem {V : Type} (d : dict V) (k : string) (v : V) :
  keys (setitem d k v)
  = if existsb (String.eqb k) (keys d) then keys d else keys d ++ [k].
Proof.
  unfold keys. induction d as [| [k0 v0] d IH]; cbn; [reflexivity |].
  rewrite (String.eqb_sym k k0).
  destruct (String.eqb_spec k0 k) as [-> | Hne]; cbn; [reflexivity |].
  rewrite IH. now destruct (existsb (String.eqb k) (map fst d)).
Qed.

Section RepeatedCases.

Variables Files Dates : Type.
Variable json2status :
  Files -> string -> Z -> result (list Dates * list bool).
Variable json2timeline :
  Files -> string -> Z -> string -> bool -> result (list Dates * list float).
Variable format_g : float -> string.
Variable date : string.

Lemma case_loop_first_occurrences (files : Files) (nps : Z)
    (timers_ cases : list string) :
  forall acc report : dict CaseInfo,
  for_each (case_body Files Dates json2status json2timeline files nps timers_)
    cases acc = Ok report ->
  keys report
  = keys acc
    ++ first_occurrences (keys acc) (map (fun c => case_name c nps) cases).
Proof.
  induction cases as [| case cases IH]; intros acc report H.
  - cbn in H. injection H as <-. cbn. now rewrite app_nil_r.
  - cbn [for_each] in H. unfold case_body at 1 in H.
    destruct (case_dict Files Dates json2status json2timeline files case nps
                timers_) as [info | e]; cbn [Py.bind] in H; [| discriminate H].
    rewrite (IH _ _ H), keys_setitem. cbn [map first_occurrences].
    destruct (existsb (String.eqb (case_name case nps)) (keys acc));
      [reflexivity | now rewrite <- app_assoc].
Qed.

(** X14.  For every configured case list, repeated cases included, the
    keys of the report that [build_perf_tests] returns are the names of
    the configured cases in the order of their first occurrence, each
    once; every key holds the entry of its case, and the status table has
    one row per entry of the report in that order. *)
Theorem report_order_with_repeated_cases (files : Files) (nps : Z)
    (cases timers_ : list string) (perfTests_ : dict CaseInfo) :
  build_perf_tests Files Dates json2status json2timeline files cases nps
    timers_ = Ok perfTests_ ->
  keys perfTests_
  = first_occurrences [] (map (fun c => case_name c nps) cases)
  /\ (forall c, In c cases ->
                lookup perfTests_ (case_name c nps)
                = case_dict Files Dates json2status json2timeline files c nps
                    timers_)
  /\ status_table perfTests_
     = (statusTab_open
        ++ join (map (fun ni => status_row (fst ni) (snd ni)) perfTests_)
        ++ statusTab_close)%string.
Proof.
  intros H. split; [| split].
  - exact (case_loop_first_occurrences files nps timers_ cases [] perfTests_ H).
  - exact (proj1 (proj2 (case_loop_entries Files Dates json2status
                           json2timeline files nps timers_ cases [] perfTests_
                           H))).
  - apply status_table_rows.
Qed.

(** X15.  For every dictionary of report-shaped entries that satisfy the
    report invariant [case_wf] (a failed entry has no timers and is red; an
    entry that ran has its timers and is red exactly when one of them is),
    [build_perf_tests_html] returns, and the subject carries the 'failed'
    tag if and only if some aggregate colour or some timer colour is red;
    otherwise it carries the 'passed' tag. *)
Theorem subject_tag_on_invariant (perfTests_ : dict CaseInfo) :
  (forall name info, In (name, info) perfTests_ -> case_wf info) ->
  exists subject body,
    build_perf_tests_html format_g date perfTests_ = Ok (subject, body)
    /\ (subject = "[ALIPerfTestsFailed] Albany Land Ice Performance Tests"
        <-> has_red perfTests_)
    /\ (~ has_red perfTests_ ->
        subject = "[ALIPerfTestsPassed] Albany Land Ice Performance Tests").
Proof.
  intros Hwf.
  destruct (case_tab_loop format_g perfTests_ Hwf false EmptyString)
    as [tabs' Hloop].
  pose proof (red_case_has_red perfTests_ Hwf) as Hscan.
  unfold build_perf_tests_html, items. rewrite Hloop. cbn [Py.bind orb].
  destruct (existsb red_case perfTests_); do 2 eexists;
    (split; [reflexivity |]); split.
  - split; [intros _; now apply Hscan | reflexivity].
  - intros Hno. exfalso. apply Hno. now apply Hscan.
  - split; [discriminate |]. intros Hred. apply Hscan in Hred.
    discriminate Hred.
  - reflexivity.
Qed.

End RepeatedCases.

Lemma report_order_with_repeated_cases_witness :
  keys [("broken_np384", failed_case)]
  = first_occurrences [] (map (fun c => case_name c 384) ["broken"; "broken"])
  /\ (forall c, In c ["broken"; "broken"] ->
                lookup [("broken_np384", failed_case)] (case_name c 384)
                = case_dict unit string ex_json2status ex_json2timeline tt c
                    384 [])
  /\ status_table [("broken_np384", failed_case)]
     = (statusTab_open
        ++ join (map (fun ni => status_row (fst ni) (snd ni))
                   [("broken_np384", failed_case)])
        ++ statusTab_close)%string.
Proof.
  apply (report_order_with_repeated_cases unit string ex_json2status
           ex_json2timeline tt 384 ["broken"; "broken"] []).
  vm_compute. reflexivity.
Defined.

Lemma subject_tag_on_invariant_witness :
  exists subject body,
    build_perf_tests_html ex_format_g ex_date ex_report = Ok (subject, body)
    /\ (subject = "[ALIPerfTestsFailed] Albany Land Ice Performance Tests"
        <-> has_red ex_report)
    /\ (~ has_red ex_report ->
        subject = "[ALIPerfTestsPassed] Albany Land Ice Performance Tests").
Proof.
  apply (subject_tag_on_invariant ex_format_g ex_date ex_report).
  intros name info [H | [H | []]]; injection H as <- <-.
  - left. repeat split.
  - right. split; [reflexivity |]. eexists. split; [reflexivity |].
    split; [discriminate |].
    intros (t & ti & [H | [H | []]] & Hcol); injection H as <- <-;
      discriminate Hcol.
Defined.
